(** * Plant AI Guardian backend: the aggregator of [main.py]

    A shallow embedding of the helpers and routes of [main.py]
    ([external_predict], [external_treatments], [external_products],
    [external_tutorials], [analyze], [recent], [test_database]) and the
    properties of the request/response mapping, of the fallback substitution
    and of the diagnostic report.

    Conventions of the embedding:
    - a Python [float] is an IEEE 754 binary64 value, [spec_float] of the
      standard library, compared with [SFltb]/[SFleb]; a decimal literal of
      the source is the binary64 value nearest to it;
    - a value decoded by [r.json()] is a [pyval]; a dict is the list of its
      items, looked up by key;
    - an operation that can raise returns a [res]; [try ... except Exception]
      is [try_except];
    - the upstream service and the document store are records of functions
      giving the outcome of each call. *)

From Stdlib Require Import ZArith Bool List String Ascii Lia.
From Stdlib Require Import Floats.SpecFloat.
Import ListNotations.
Open Scope string_scope.
Open Scope Z_scope.

Set Implicit Arguments.

(** ** Python floats *)

Definition float : Type := spec_float.

Module PyFloat.

Definition prec : Z := 53.
Definition emax : Z := 1024.

(** [float(n)] for a Python int whose nearest binary64 value is finite. *)
Definition of_int (n : Z) : float := binary_normalize prec emax n 0 false.

(** The literal [m / 10^k] written in decimal in the source: [m] and [10^k]
    are exact in binary64 for the literals of [main.py], and the IEEE
    division is correctly rounded. *)
Definition decimal (m : Z) (k : Z) : float :=
  SFdiv prec emax (of_int m) (of_int (10 ^ k)).

Definition nan : float := S754_nan.

Definition is_nan (x : float) : bool :=
  match x with S754_nan => true | _ => false end.

(** Python's [a > b] and [a <= b] on floats. *)
Definition gt (a b : float) : bool := SFltb b a.
Definition le (a b : float) : bool := SFleb a b.
Definition lt (a b : float) : bool := SFltb a b.

Definition is_zero (x : float) : bool :=
  match x with S754_zero _ => true | _ => false end.

Definition is_finite (x : float) : bool :=
  match x with S754_zero _ | S754_finite _ _ _ => true | _ => false end.

End PyFloat.

(** The float literals of [main.py]. *)
Definition lit_0_5 : float := Eval vm_compute in PyFloat.decimal 5 1.
Definition lit_0_6 : float := Eval vm_compute in PyFloat.decimal 6 1.
Definition lit_0_85 : float := Eval vm_compute in PyFloat.decimal 85 2.
Definition lit_0_87 : float := Eval vm_compute in PyFloat.decimal 87 2.
Definition lit_0_76 : float := Eval vm_compute in PyFloat.decimal 76 2.
Definition lit_0_63 : float := Eval vm_compute in PyFloat.decimal 63 2.
Definition lit_0_94 : float := Eval vm_compute in PyFloat.decimal 94 2.
Definition lit_12_99 : float := Eval vm_compute in PyFloat.decimal 1299 2.
Definition lit_18_49 : float := Eval vm_compute in PyFloat.decimal 1849 2.

(** ** Python values and exceptions *)

#[warnings="-register-all"]
Inductive pyval : Type :=
| PNone
| PBool (b : bool)
| PInt (n : Z)
| PFloat (x : float)
| PStr (s : string)
| PList (items : list pyval)
| PDict (items : list (string * pyval)).

Definition pydict := list (string * pyval).

(** Subclasses of [Exception] that the modelled code can meet. *)
Inductive exn : Type :=
| RequestError      (* requests.post/get, raise_for_status, r.json() *)
| AttributeError    (* [.get] on a value that is not a dict *)
| TypeError         (* float(None), float([...]) *)
| ValueError        (* float("abc") *)
| OverflowError     (* float(10**400) *)
| ValidationError   (* a pydantic model rejects a field *)
| StoreError.       (* the document store *)

Inductive res (A : Type) : Type :=
| Ok (a : A)
| Raise (e : exn).

Arguments Ok {A} a.
Arguments Raise {A} e.

Definition bind {A B} (c : res A) (k : A -> res B) : res B :=
  match c with
  | Ok a => k a
  | Raise e => Raise e
  end.

Declare Scope res_scope.
Delimit Scope res_scope with res.
Notation "x <- c ;; k" := (bind c (fun x => k))
  (at level 61, c at next level, right associativity) : res_scope.
Open Scope res_scope.

(** [try: body  except Exception: handler]. *)
Definition try_except {A} (body : res A) (handler : A) : A :=
  match body with
  | Ok a => a
  | Raise _ => handler
  end.

(** [for it in items: out.append(f(it))]; the first exception ends the loop. *)
Fixpoint for_each {A B} (f : A -> res B) (items : list A) : res (list B) :=
  match items with
  | [] => Ok []
  | it :: rest =>
      b <- f it ;;
      out <- for_each f rest ;;
      Ok (b :: out)
  end.

Fixpoint lookup (k : string) (d : pydict) : option pyval :=
  match d with
  | [] => None
  | (k', v) :: rest => if String.eqb k k' then Some v else lookup k rest
  end.

(** [it.get(k, default)]; [it.get(k)] is [py_get it k PNone]. *)
Definition py_get (it : pyval) (k : string) (default : pyval) : res pyval :=
  match it with
  | PDict d => Ok (match lookup k d with Some v => v | None => default end)
  | _ => Raise AttributeError
  end.

(** Truth value of a Python object. *)
Definition truthy (v : pyval) : bool :=
  match v with
  | PNone => false
  | PBool b => b
  | PInt n => negb (n =? 0)
  | PFloat x => negb (PyFloat.is_zero x)
  | PStr s => negb (String.eqb s "")
  | PList l => match l with [] => false | _ => true end
  | PDict d => match d with [] => false | _ => true end
  end.

(** [a or b]. *)
Definition py_or (a b : pyval) : pyval := if truthy a then a else b.

(** ** What the libraries decide

    Two conversions are fixed by the interpreter and by pydantic and not by
    this repository: the parser behind [float(s)] for a string [s], and what
    a [str] field of a pydantic model makes of a value that is neither a
    string nor [None] (pydantic 1 converts numbers, pydantic 2 rejects
    them). The model takes both as given. *)
Class Runtime : Type := {
  float_of_str : string -> option float;
  str_of_other : pyval -> option string
}.

Section Helpers.

Context {rt : Runtime}.

(** [float(v)]. *)
Definition py_float (v : pyval) : res float :=
  match v with
  | PNone => Raise TypeError
  | PBool b => Ok (PyFloat.of_int (if b then 1 else 0))
  | PInt n =>
      let x := PyFloat.of_int n in
      if PyFloat.is_finite x then Ok x else Raise OverflowError
  | PFloat x => Ok x
  | PStr s =>
      match float_of_str s with
      | Some x => Ok x
      | None => Raise ValueError
      end
  | PList _ | PDict _ => Raise TypeError
  end.

(** A field annotated [str]. *)
Definition validate_str (v : pyval) : res string :=
  match v with
  | PStr s => Ok s
  | PNone => Raise ValidationError
  | _ =>
      match str_of_other v with
      | Some s => Ok s
      | None => Raise ValidationError
      end
  end.

(** A field annotated [Optional[str]]. *)
Definition validate_opt_str (v : pyval) : res (option string) :=
  match v with
  | PNone => Ok None
  | _ => s <- validate_str v ;; Ok (Some s)
  end.

End Helpers.

(** ** Pydantic models *)

Record PredictResponse : Type := {
  pr_disease : string;
  pr_confidence : float;
  pr_organ : option string;
  pr_severity : option string
}.

Record TreatmentItem : Type := {
  symptoms : option string;
  organic : option string;
  chemical : option string;
  prevention : option string
}.

Record ProductItem : Type := {
  name : string;
  price : option float;
  url : option string;
  image : option string
}.

Record TutorialItem : Type := {
  title : string;
  videoId : option string;
  thumbnail : option string;
  tut_url : option string
}.

Record AnalyzeResponse : Type := {
  result : PredictResponse;
  treatments : list TreatmentItem;
  products : list ProductItem;
  tutorials : list TutorialItem
}.

(** ** The outside world *)

(** For each outbound call, the outcome of [requests.post]/[requests.get],
    [r.raise_for_status()] and [r.json()] together: the decoded body, or the
    exception one of the three raised. *)
Record Upstream : Type := {
  post_predict : string -> res pyval;
  get_treatments : string -> res pyval;
  get_products : string -> res pyval;
  get_tutorials : string -> res pyval
}.

(** The handle [db] of the optional [database] module. *)
Record Database : Type := {
  create_document : string -> pydict -> res unit;
  (* list(db["analysis"].find({}).sort("created_at", -1).limit(limit)) *)
  find_recent : Z -> res (list pydict)
}.

(** What became of the best-effort insert of [analyze]. *)
Inductive persisted : Type :=
| NoStore
| Stored (doc : pydict)
| Discarded (e : exn).

(** ** Helpers of [main.py] *)

Section Aggregator.

Context {rt : Runtime}.
Variable up : Upstream.

(** [PredictResponse(disease=..., confidence=..., organ=..., severity=...)]:
    [confidence] is already a float, [organ] and [severity] are strings. *)
Definition new_PredictResponse (disease : pyval) (confidence : float)
    (organ severity : string) : res PredictResponse :=
  d <- validate_str disease ;;
  Ok {| pr_disease := d; pr_confidence := confidence;
        pr_organ := Some organ; pr_severity := Some severity |}.

Definition new_TreatmentItem (sy og ch pv : pyval) : res TreatmentItem :=
  sy' <- validate_opt_str sy ;;
  og' <- validate_opt_str og ;;
  ch' <- validate_opt_str ch ;;
  pv' <- validate_opt_str pv ;;
  Ok {| symptoms := sy'; organic := og'; chemical := ch'; prevention := pv' |}.

Definition new_ProductItem (nm : pyval) (pr : option float) (u im : pyval)
    : res ProductItem :=
  nm' <- validate_str nm ;;
  u' <- validate_opt_str u ;;
  im' <- validate_opt_str im ;;
  Ok {| name := nm'; price := pr; url := u'; image := im' |}.

Definition new_TutorialItem (ti vid th u : pyval) : res TutorialItem :=
  ti' <- validate_str ti ;;
  vid' <- validate_opt_str vid ;;
  th' <- validate_opt_str th ;;
  u' <- validate_opt_str u ;;
  Ok {| title := ti'; videoId := vid'; thumbnail := th'; tut_url := u' |}.

(** ["high" if confidence > 0.85 else ("medium" if confidence > 0.6 else "low")] *)
Definition severity_of (confidence : float) : string :=
  if PyFloat.gt confidence lit_0_85 then "high"
  else if PyFloat.gt confidence lit_0_6 then "medium"
  else "low".

(** The [try] block of [external_predict] with its [except] branch: the
    pair [(disease, confidence)] that reaches the heuristics. *)
Definition predicted (image_base64 : string) : pyval * float :=
  try_except
    (data <- post_predict up image_base64 ;;
     disease <- py_get data "disease" (PStr "Unknown") ;;
     c <- py_get data "confidence" (PFloat lit_0_5) ;;
     confidence <- py_float c ;;
     Ok (disease, confidence))
    (PStr "Leaf Blight", lit_0_87).

Definition external_predict (image_base64 : string) : res PredictResponse :=
  let '(disease, confidence) := predicted image_base64 in
  let organ := "leaf" in
  let severity := severity_of confidence in
  new_PredictResponse disease confidence organ severity.

Definition fallback_treatment : TreatmentItem :=
  {| symptoms := Some "Spots and lesions on leaves";
     organic := Some "Neem oil spray weekly";
     chemical := Some "Copper-based fungicide as directed";
     prevention := Some "Ensure proper spacing and airflow" |}.

(** The body of the loop of [external_treatments]. *)
Definition treatment_of (it : pyval) : res TreatmentItem :=
  sy <- py_get it "symptoms" PNone ;;
  og <- py_get it "organic" PNone ;;
  ch <- py_get it "chemical" PNone ;;
  p1 <- py_get it "prevention" PNone ;;
  pv <- (if truthy p1 then Ok p1 else py_get it "preventive" PNone) ;;
  new_TreatmentItem sy og ch pv.

Definition external_treatments (disease : string) : list TreatmentItem :=
  try_except
    (items <- get_treatments up disease ;;
     match items with
     | PList l => for_each treatment_of l
     | _ => Ok [fallback_treatment]
     end)
    [fallback_treatment].

Definition fallback_products : list ProductItem :=
  [ {| name := "Bio Neem Oil"; price := Some lit_12_99;
       url := Some "https://example.com/neem";
       image := Some "https://images.unsplash.com/photo-1524594081293-190a2fe0baae?q=80&w=400" |};
    {| name := "Copper Fungicide"; price := Some lit_18_49;
       url := Some "https://example.com/copper";
       image := Some "https://images.unsplash.com/photo-1542291026-7eec264c27ff?q=80&w=400" |} ].

(** [float(it.get("price")) if it.get("price") is not None else None] under
    its own [try]/[except]. *)
Definition price_of (it : pyval) : option float :=
  try_except
    (p <- py_get it "price" PNone ;;
     match p with
     | PNone => Ok None
     | _ => x <- py_float p ;; Ok (Some x)
     end)
    None.

(** The body of the loop of [external_products]. *)
Definition product_of (it : pyval) : res ProductItem :=
  let pr := price_of it in
  nm <- py_get it "name" (PStr "Product") ;;
  u <- py_get it "url" PNone ;;
  im <- py_get it "image" PNone ;;
  new_ProductItem nm pr u im.

(** [Some out] when the [try] block returns [out]; [None] when control
    reaches the statement after it. *)
Definition products_tried (disease : string) : option (list ProductItem) :=
  try_except
    (items <- get_products up disease ;;
     match items with
     | PList l => out <- for_each product_of l ;; Ok (Some out)
     | _ => Ok None
     end)
    None.

Definition external_products (disease : string) : list ProductItem :=
  match products_tried disease with
  | Some out => out
  | None => fallback_products
  end.

Definition fallback_tutorials (disease : string) : list TutorialItem :=
  [ {| title := "How to treat " ++ disease;
       videoId := Some "dQw4w9WgXcQ";
       thumbnail := Some "https://img.youtube.com/vi/dQw4w9WgXcQ/hqdefault.jpg";
       tut_url := Some "https://www.youtube.com/watch?v=dQw4w9WgXcQ" |};
    {| title := "Preventing " ++ disease ++ " in your garden";
       videoId := Some "9bZkp7q19f0";
       thumbnail := Some "https://img.youtube.com/vi/9bZkp7q19f0/hqdefault.jpg";
       tut_url := Some "https://www.youtube.com/watch?v=9bZkp7q19f0" |} ].

(** The body of the loop of [external_tutorials]. *)
Definition tutorial_of (it : pyval) : res TutorialItem :=
  ti <- py_get it "title" (PStr "Tutorial") ;;
  vid <- py_get it "videoId" PNone ;;
  th <- py_get it "thumbnail" PNone ;;
  u <- py_get it "url" PNone ;;
  new_TutorialItem ti vid th u.

Definition tutorials_tried (disease : string) : option (list TutorialItem) :=
  try_except
    (items <- get_tutorials up disease ;;
     match items with
     | PList l => out <- for_each tutorial_of l ;; Ok (Some out)
     | _ => Ok None
     end)
    None.

Definition external_tutorials (disease : string) : list TutorialItem :=
  match tutorials_tried disease with
  | Some out => out
  | None => fallback_tutorials disease
  end.

(** ** Routes *)

Definition opt_str (o : option string) : pyval :=
  match o with Some s => PStr s | None => PNone end.

(** The record that [analyze] hands to [create_document]. *)
Definition analysis_record (r : PredictResponse) : pydict :=
  [ ("disease", PStr (pr_disease r));
    ("confidence", PFloat (pr_confidence r));
    ("organ", opt_str (pr_organ r));
    ("severity", opt_str (pr_severity r)) ].

(** The [try] block around the insert. *)
Definition persist (db : option Database) (r : PredictResponse) : persisted :=
  match db with
  | None => NoStore
  | Some d =>
      match create_document d "analysis" (analysis_record r) with
      | Ok _ => Stored (analysis_record r)
      | Raise e => Discarded e
      end
  end.

Definition analyze (db : option Database) (image : string)
    : res (AnalyzeResponse * persisted) :=
  r <- external_predict image ;;
  let ts := external_treatments (pr_disease r) in
  let ps := external_products (pr_disease r) in
  let us := external_tutorials (pr_disease r) in
  let stored := persist db r in
  Ok ({| result := r; treatments := ts; products := ps; tutorials := us |},
      stored).

Definition doc_get (d : pydict) (k : string) : pyval :=
  match lookup k d with Some v => v | None => PNone end.

Definition summary_of (d : pydict) : pydict :=
  [ ("disease", doc_get d "disease");
    ("confidence", doc_get d "confidence");
    ("severity", doc_get d "severity") ].

Definition mock_recent : list pydict :=
  [ [ ("disease", PStr "Leaf Blight"); ("confidence", PFloat lit_0_87);
      ("severity", PStr "high") ];
    [ ("disease", PStr "Powdery Mildew"); ("confidence", PFloat lit_0_76);
      ("severity", PStr "medium") ];
    [ ("disease", PStr "Rust"); ("confidence", PFloat lit_0_63);
      ("severity", PStr "medium") ];
    [ ("disease", PStr "Healthy"); ("confidence", PFloat lit_0_94);
      ("severity", PStr "low") ] ].

Definition recent (db : option Database) (limit : Z) : list pydict :=
  match db with
  | Some d =>
      match find_recent d limit with
      | Ok docs => map summary_of docs
      | Raise _ => mock_recent
      end
  | None => mock_recent
  end.

End Aggregator.

(** ** Diagnostics: [test_database] *)

(** A Python [str] seen as its code points, for the places where the code
    slices one; elsewhere a [str] is the [string] of its UTF-8 bytes. *)
Definition codepoints := list N.

Definition byte (n : N) : string := String (ascii_of_N n) EmptyString.

Definition utf8_char (c : N) : string :=
  (if c <? 0x80 then byte c
   else if c <? 0x800 then
     byte (0xC0 + c / 0x40) ++ byte (0x80 + c mod 0x40)
   else if c <? 0x10000 then
     byte (0xE0 + c / 0x1000) ++ byte (0x80 + (c / 0x40) mod 0x40)
       ++ byte (0x80 + c mod 0x40)
   else
     byte (0xF0 + c / 0x40000) ++ byte (0x80 + (c / 0x1000) mod 0x40)
       ++ byte (0x80 + (c / 0x40) mod 0x40) ++ byte (0x80 + c mod 0x40))%N.

Fixpoint utf8 (s : codepoints) : string :=
  match s with
  | [] => ""
  | c :: rest => utf8_char c ++ utf8 rest
  end.

(** The three signs of the report: U+2705, U+274C, and U+26A0 U+FE0F. *)
Definition check_mark : string := utf8 [0x2705%N].
Definition cross_mark : string := utf8 [0x274C%N].
Definition warning_sign : string := utf8 [0x26A0%N; 0xFE0F%N].

(** The outcome of a call on the store handle: its value, or [str(e)] of
    the exception [e] it raised. *)
Inductive attempt (A : Type) : Type :=
| Got (a : A)
| Threw (message : codepoints).

Arguments Got {A} a.
Arguments Threw {A} message.

(** What [test_database] asks of the handle [db]: its attribute [name]
    ([Got None] when [hasattr(db, 'name')] is false) and
    [db.list_collection_names()]. *)
Record Handle : Type := {
  db_name : attempt (option pyval);
  list_collection_names : attempt (list pyval)
}.

(** [os.getenv]. *)
Definition environ := string -> option string.

(** [response[k] = v]: the value of an existing key is replaced in place, a
    new key goes to the end. *)
Fixpoint setitem (k : string) (v : pyval) (d : pydict) : pydict :=
  match d with
  | [] => [(k, v)]
  | (k', v') :: rest =>
      if String.eqb k k' then (k', v) :: rest
      else (k', v') :: setitem k v rest
  end.

(** [str(e)[:50]] *)
Definition truncated (message : codepoints) : string :=
  utf8 (firstn 50 message).

(** ["✅ Set" if os.getenv(k) else "❌ Not Set"] *)
Definition env_flag (env : environ) (k : string) : pyval :=
  match env k with
  | Some s =>
      if String.eqb s "" then PStr (cross_mark ++ " Not Set")
      else PStr (check_mark ++ " Set")
  | None => PStr (cross_mark ++ " Not Set")
  end.

Definition initial_response : pydict :=
  [ ("backend", PStr (check_mark ++ " Running"));
    ("database", PStr (cross_mark ++ " Not Available"));
    ("database_url", PNone);
    ("database_name", PNone);
    ("connection_status", PStr "Not Connected");
    ("collections", PList []) ].

(** The inner [try] of [test_database], on the response so far. *)
Definition list_collections (h : Handle) (response : pydict) : pydict :=
  match list_collection_names h with
  | Got collections =>
      let response :=
        setitem "collections" (PList (firstn 10 collections)) response in
      setitem "database" (PStr (check_mark ++ " Connected & Working")) response
  | Threw message =>
      setitem "database"
        (PStr (warning_sign ++ "  Connected but Error: " ++ truncated message))
        response
  end.

(** The outer [try] of [test_database]. *)
Definition inspect (db : option Handle) (response : pydict) : pydict :=
  match db with
  | Some h =>
      let response :=
        setitem "database" (PStr (check_mark ++ " Available")) response in
      let response :=
        setitem "database_url" (PStr (check_mark ++ " Configured")) response in
      match db_name h with
      | Got nm =>
          let response :=
            setitem "database_name"
              (match nm with
               | Some v => v
               | None => PStr (check_mark ++ " Connected")
               end) response in
          let response :=
            setitem "connection_status" (PStr "Connected") response in
          list_collections h response
      | Threw message =>
          setitem "database"
            (PStr (cross_mark ++ " Error: " ++ truncated message)) response
      end
  | None =>
      setitem "database"
        (PStr (warning_sign ++ "  Available but not initialized")) response
  end.

Definition test_database (db : option Handle) (env : environ) : pydict :=
  let response := inspect db initial_response in
  let response :=
    setitem "database_url" (env_flag env "DATABASE_URL") response in
  let response :=
    setitem "database_name" (env_flag env "DATABASE_NAME") response in
  response.

(** [root]. *)
Definition root : pydict :=
  [ ("status", PStr "ok"); ("service", PStr "Plant AI Guardian Backend") ].

(** The place of a severity label in the order low, medium, high. *)
Definition severity_rank (s : string) : nat :=
  if String.eqb s "high" then 2
  else if String.eqb s "medium" then 1
  else 0.

(** ** Worlds to run the model in *)

(** A runtime whose [float] parses no string and whose [str] fields convert
    nothing (pydantic 2); enough to run inputs that hold no numeric string
    and no non-string where a string is expected. *)
Definition strict_runtime : Runtime :=
  {| float_of_str := fun _ => None; str_of_other := fun _ => None |}.

(** An upstream that gives the same four answers whatever it is asked. *)
Definition serving (p t pr tu : res pyval) : Upstream :=
  {| post_predict := fun _ => p;
     get_treatments := fun _ => t;
     get_products := fun _ => pr;
     get_tutorials := fun _ => tu |}.

(** The upstream is unreachable. *)
Definition offline : Upstream :=
  serving (Raise RequestError) (Raise RequestError)
          (Raise RequestError) (Raise RequestError).

(** The classifier is unreachable and the three content services answer
    with an empty JSON array. *)
Definition empty_shelves : Upstream :=
  serving (Raise RequestError) (Ok (PList [])) (Ok (PList [])) (Ok (PList [])).

(** An upstream that differs from [empty_shelves] everywhere but on the
    image "ZmFrZQ==" and the disease "Leaf Blight": other images are
    classified as rust, and other diseases get one item from each content
    service. *)
Definition blight_desk : Upstream :=
  {| post_predict := fun image =>
       if String.eqb image "ZmFrZQ==" then Raise RequestError
       else Ok (PDict [("disease", PStr "Rust");
                       ("confidence", PFloat lit_0_63)]);
     get_treatments := fun d =>
       if String.eqb d "Leaf Blight" then Ok (PList [])
       else Ok (PList [PDict [("organic", PStr "Sulfur dust")]]);
     get_products := fun d =>
       if String.eqb d "Leaf Blight" then Ok (PList [])
       else Ok (PList [PDict [("name", PStr "Sulfur")]]);
     get_tutorials := fun d =>
       if String.eqb d "Leaf Blight" then Ok (PList [])
       else Ok (PList [PDict [("title", PStr "Dusting")]]) |}.

(** A store whose calls all fail. *)
Definition broken_store : Database :=
  {| create_document := fun _ _ => Raise StoreError;
     find_recent := fun _ => Raise StoreError |}.

(** A store that accepts inserts and holds no analysis. *)
Definition blank_store : Database :=
  {| create_document := fun _ _ => Ok tt;
     find_recent := fun _ => Ok [] |}.

(** A handle with a name and twelve collections. *)
Definition busy_handle : Handle :=
  {| db_name := Got (Some (PStr "plants"));
     list_collection_names :=
       Got (map (fun n => PInt (Z.of_nat n)) (seq 0 12)) |}.

(** A handle whose listing raises an exception with a sixty-character
    message. *)
Definition failing_handle : Handle :=
  {| db_name := Got None;
     list_collection_names := Threw (repeat 120%N 60) |}.

(** No environment variable is set. *)
Definition bare_environ : environ := fun _ => None.

(** [DATABASE_URL] is set, [DATABASE_NAME] is set to the empty string. *)
Definition half_environ : environ :=
  fun k => if String.eqb k "DATABASE_URL" then Some "mongodb://localhost"
           else if String.eqb k "DATABASE_NAME" then Some ""
           else None.

(** A price as the data model wants it: a real number that is not below
    zero. *)
Definition nonneg_real (x : float) : bool :=
  PyFloat.is_finite x && negb (PyFloat.lt x (PyFloat.of_int 0)).

Definition price_ok (p : ProductItem) : Prop :=
  match price p with
  | None => True
  | Some x => nonneg_real x = true
  end.

Definition is_list (v : pyval) : bool :=
  match v with PList _ => true | _ => false end.

(** The bundle of a run, without what became of the insert. *)
Definition bundle_of (a : res (AnalyzeResponse * persisted))
    : res AnalyzeResponse :=
  b <- a ;; Ok (fst b).
(** ** Facts on float comparison *)

Section FloatFacts.

Lemma SFcompare_antisym (a b : float) :
  SFcompare a b = option_map CompOpp (SFcompare b a).
Proof.
  destruct a as [sa|sa| |sa ma ea], b as [sb|sb| |sb mb eb]; simpl;
    try reflexivity;
    try (destruct sa; reflexivity); try (destruct sb; reflexivity);
    try (destruct sa, sb; reflexivity).
  destruct sa, sb; simpl; try reflexivity;
    rewrite (Z.compare_antisym ea eb);
    destruct (ea ?= eb); simpl; try reflexivity;
    change (Pos.compare_cont Eq ma mb) with (Pos.compare ma mb);
    change (Pos.compare_cont Eq mb ma) with (Pos.compare mb ma);
    rewrite (Pos.compare_antisym ma mb); destruct (Pos.compare ma mb); reflexivity.
Qed.

Lemma SFcompare_nan_free (a b : float) :
  PyFloat.is_nan a = false -> PyFloat.is_nan b = false ->
  exists c, SFcompare a b = Some c.
Proof.
  destruct a, b; simpl; try discriminate; intros _ _; eexists; reflexivity.
Qed.

Lemma gt_nan_l (b : float) : PyFloat.gt PyFloat.nan b = false.
Proof. destruct b; reflexivity. Qed.

Lemma le_not_gt (a b : float) :
  PyFloat.is_nan a = false -> PyFloat.is_nan b = false ->
  PyFloat.le a b = negb (PyFloat.gt a b).
Proof.
  intros Ha Hb. unfold PyFloat.gt, PyFloat.le, SFltb, SFleb.
  rewrite (SFcompare_antisym b a).
  destruct (SFcompare_nan_free a b Ha Hb) as [c ->]. destruct c; reflexivity.
Qed.

Lemma gt_is_number (a b : float) :
  PyFloat.gt a b = true -> PyFloat.is_nan a = false.
Proof. destruct a; try reflexivity. rewrite gt_nan_l. discriminate. Qed.

Lemma le_is_number (a b : float) :
  PyFloat.le a b = true -> PyFloat.is_nan a = false.
Proof. destruct a; try reflexivity. discriminate. Qed.

(** Above the larger of two positive floats of one exponent is above the
    smaller. *)
Lemma gt_weaken (e : Z) (hi lo : positive) (c : float) :
  (lo < hi)%positive ->
  PyFloat.gt c (S754_finite false hi e) = true ->
  PyFloat.gt c (S754_finite false lo e) = true.
Proof.
  intros Hlt. unfold PyFloat.gt, SFltb.
  destruct c as [s|s| |s m e']; simpl; trivial.
  destruct s; trivial.
  destruct (Z.compare e e'); trivial.
  change (Pos.compare_cont Eq hi m) with (Pos.compare hi m).
  change (Pos.compare_cont Eq lo m) with (Pos.compare lo m).
  destruct (Pos.compare_spec hi m); try discriminate. intros _.
  destruct (Pos.compare_spec lo m); trivial; lia.
Qed.

Lemma gt_0_85_gt_0_6 (c : float) :
  PyFloat.gt c lit_0_85 = true -> PyFloat.gt c lit_0_6 = true.
Proof. apply gt_weaken. reflexivity. Qed.

End FloatFacts.

(** ** Severity *)

Lemma severity_of_cases (c : float) :
  (PyFloat.gt c lit_0_85 = true /\ severity_of c = "high") \/
  (PyFloat.gt c lit_0_85 = false /\ PyFloat.gt c lit_0_6 = true /\
   severity_of c = "medium") \/
  (PyFloat.gt c lit_0_85 = false /\ PyFloat.gt c lit_0_6 = false /\
   severity_of c = "low").
Proof.
  unfold severity_of.
  destruct (PyFloat.gt c lit_0_85); [now left | right].
  destruct (PyFloat.gt c lit_0_6); [now left | now right].
Qed.

Lemma lit_not_nan : PyFloat.is_nan lit_0_6 = false /\ PyFloat.is_nan lit_0_85 = false.
Proof. split; reflexivity. Qed.

Lemma is_nan_eq (c : float) : PyFloat.is_nan c = true -> c = PyFloat.nan.
Proof. destruct c; simpl; intros H; try discriminate; reflexivity. Qed.

Section Predict.

Context {rt : Runtime}.
Variable up : Upstream.

Lemma external_predict_severity (image : string) (r : PredictResponse) :
  external_predict up image = Ok r ->
  pr_severity r = Some (severity_of (pr_confidence r)) /\
  pr_organ r = Some "leaf".
Proof.
  unfold external_predict. destruct (predicted up image) as [d c].
  unfold new_PredictResponse. destruct (validate_str d); simpl; [|discriminate].
  intros H. injection H as <-. simpl. split; reflexivity.
Qed.

Lemma predicted_ignores_severity_key (up' : Upstream) (image : string)
    (d : pydict) (v : pyval) :
  post_predict up image = Ok (PDict d) ->
  post_predict up' image = Ok (PDict (("severity", v) :: d)) ->
  predicted up' image = predicted up image.
Proof.
  intros H H'. unfold predicted. rewrite H, H'. reflexivity.
Qed.

Lemma predicted_failure (image : string) (e : exn) :
  post_predict up image = Raise e ->
  predicted up image = (PStr "Leaf Blight", lit_0_87).
Proof. intros H. unfold predicted. rewrite H. reflexivity. Qed.

(** Whatever goes wrong inside the [try] block, the pair is the fallback. *)
Lemma predicted_bad_confidence (image : string) (data c : pyval) (e : exn) :
  post_predict up image = Ok data ->
  py_get data "confidence" (PFloat lit_0_5) = Ok c ->
  py_float c = Raise e ->
  predicted up image = (PStr "Leaf Blight", lit_0_87).
Proof.
  intros H Hc He. unfold predicted. rewrite H. simpl.
  destruct data; simpl in *; try reflexivity.
  injection Hc as Hc. rewrite Hc, He. reflexivity.
Qed.

Lemma fallback_response (image : string) :
  predicted up image = (PStr "Leaf Blight", lit_0_87) ->
  external_predict up image =
    Ok {| pr_disease := "Leaf Blight"; pr_confidence := lit_0_87;
          pr_organ := Some "leaf"; pr_severity := Some "high" |}.
Proof. intros H. unfold external_predict. rewrite H. reflexivity. Qed.

End Predict.

(** C1 (as stated it fails): a NaN confidence, which [float("nan")] or a
    JSON [NaN] gives, gets severity "low" although [nan <= 0.6] is false. *)
Lemma severity_nan_counterexample :
  ~ (severity_of PyFloat.nan = "low" <-> PyFloat.le PyFloat.nan lit_0_6 = true).
Proof. intros [H _]. specialize (H eq_refl). discriminate H. Qed.

Lemma severity_high_iff (c : float) :
  severity_of c = "high" <-> PyFloat.gt c lit_0_85 = true.
Proof.
  destruct (severity_of_cases c) as [[G S]|[[G [G' S]]|[G [G' S]]]];
    rewrite S; split; intros; congruence.
Qed.

Lemma severity_medium_iff (c : float) :
  severity_of c = "medium" <->
  PyFloat.gt c lit_0_6 = true /\ PyFloat.le c lit_0_85 = true.
Proof.
  destruct lit_not_nan as [_ N85].
  destruct (severity_of_cases c) as [[G S]|[[G [G' S]]|[G [G' S]]]];
    rewrite S; split; try discriminate; try (intros [? ?]; congruence).
  - intros [G' L]. pose proof (le_is_number _ _ L) as Nc.
    rewrite (le_not_gt c lit_0_85 Nc N85), G in L. discriminate.
  - intros _. split; [assumption|].
    rewrite (le_not_gt c lit_0_85 (gt_is_number _ _ G') N85), G. reflexivity.
Qed.

Lemma severity_low_iff (c : float) :
  severity_of c = "low" <-> PyFloat.le c lit_0_6 = true \/ c = PyFloat.nan.
Proof.
  destruct lit_not_nan as [N6 _].
  split.
  - intros H. destruct (PyFloat.is_nan c) eqn:Nc.
    + right. now apply is_nan_eq.
    + left. destruct (severity_of_cases c) as [[G S]|[[G [G' S]]|[G [G' S]]]];
        rewrite S in H; try discriminate.
      rewrite (le_not_gt c lit_0_6 Nc N6), G'. reflexivity.
  - intros [L| ->]; [|reflexivity].
    pose proof (le_is_number _ _ L) as Nc.
    rewrite (le_not_gt c lit_0_6 Nc N6) in L.
    destruct (severity_of_cases c) as [[G S]|[[G [G' S]]|[G [G' S]]]];
      try assumption.
    + rewrite (gt_0_85_gt_0_6 c G) in L. discriminate.
    + rewrite G' in L. discriminate.
Qed.

(** C1 (amended): for every confidence [c] the severity computed by
    [external_predict] is "high" iff [c > 0.85], "medium" iff
    [0.6 < c <= 0.85], and "low" iff [c <= 0.6] or [c] is NaN; [0.6] yields
    "low" and [0.85] yields "medium"; the severity of every response is this
    function of its confidence, and a [severity] key of the upstream payload
    changes nothing. *)
Theorem severity_thresholds :
  forall (rt : Runtime) (up : Upstream) (image : string) (c : float),
    (severity_of c = "high" <-> PyFloat.gt c lit_0_85 = true) /\
    (severity_of c = "medium" <->
       PyFloat.gt c lit_0_6 = true /\ PyFloat.le c lit_0_85 = true) /\
    (severity_of c = "low" <->
       PyFloat.le c lit_0_6 = true \/ c = PyFloat.nan) /\
    severity_of lit_0_6 = "low" /\
    severity_of lit_0_85 = "medium" /\
    (forall r, external_predict up image = Ok r ->
       pr_severity r = Some (severity_of (pr_confidence r))) /\
    (forall up' d v,
       post_predict up image = Ok (PDict d) ->
       post_predict up' image = Ok (PDict (("severity", v) :: d)) ->
       external_predict up' image = external_predict up image).
Proof.
  intros rt up image c.
  split; [apply severity_high_iff|].
  split; [apply severity_medium_iff|].
  split; [apply severity_low_iff|].
  split; [reflexivity|].
  split; [reflexivity|].
  split.
  - intros r H. apply (external_predict_severity up image H).
  - intros up' d v H H'. unfold external_predict.
    rewrite (predicted_ignores_severity_key up up' image H H'). reflexivity.
Qed.

Lemma severity_thresholds_witness :
  external_predict (rt := strict_runtime)
    (serving (Ok (PDict [("severity", PStr "low"); ("disease", PStr "Rust");
                         ("confidence", PFloat lit_0_94)]))
             (Raise RequestError) (Raise RequestError) (Raise RequestError))
    "ZmFrZQ==" =
  external_predict (rt := strict_runtime)
    (serving (Ok (PDict [("disease", PStr "Rust");
                         ("confidence", PFloat lit_0_94)]))
             (Raise RequestError) (Raise RequestError) (Raise RequestError))
    "ZmFrZQ==".
Proof.
  apply (proj2 (proj2 (proj2 (proj2 (proj2 (proj2
    (severity_thresholds strict_runtime
       (serving (Ok (PDict [("disease", PStr "Rust");
                            ("confidence", PFloat lit_0_94)]))
                (Raise RequestError) (Raise RequestError) (Raise RequestError))
       "ZmFrZQ==" PyFloat.nan)))))))
    with (d := [("disease", PStr "Rust"); ("confidence", PFloat lit_0_94)])
         (v := PStr "low"); reflexivity.
Defined.

(** C2: the part of the claim that the code keeps (the fallback record on
    a failed call and on a confidence that [float] rejects) and the input at
    which it breaks "never raises": an upstream answer whose [disease] is
    null reaches [PredictResponse(...)] outside the [try] block and the
    validation error propagates. *)
Theorem external_predict_null_disease_raises :
  forall (rt : Runtime) (up : Upstream) (image : string),
    (forall e, post_predict up image = Raise e ->
       external_predict up image =
         Ok {| pr_disease := "Leaf Blight"; pr_confidence := lit_0_87;
               pr_organ := Some "leaf"; pr_severity := Some "high" |}) /\
    (forall data c e,
       post_predict up image = Ok data ->
       py_get data "confidence" (PFloat lit_0_5) = Ok c ->
       py_float c = Raise e ->
       external_predict up image =
         Ok {| pr_disease := "Leaf Blight"; pr_confidence := lit_0_87;
               pr_organ := Some "leaf"; pr_severity := Some "high" |}) /\
    (forall d,
       post_predict up image = Ok (PDict d) ->
       lookup "disease" d = Some PNone ->
       lookup "confidence" d = None ->
       external_predict up image = Raise ValidationError).
Proof.
  intros rt up image. split; [|split].
  - intros e H. apply fallback_response. apply (predicted_failure up image H).
  - intros data c e H Hc He. apply fallback_response.
    apply (predicted_bad_confidence up image H Hc He).
  - intros d H Hd Hc. unfold external_predict, predicted.
    rewrite H. simpl. rewrite Hd, Hc. reflexivity.
Qed.

Lemma external_predict_null_disease_raises_witness :
  external_predict (rt := strict_runtime)
    (serving (Ok (PDict [("disease", PNone)]))
             (Raise RequestError) (Raise RequestError) (Raise RequestError))
    "ZmFrZQ==" = Raise ValidationError.
Proof.
  apply (proj2 (proj2 (external_predict_null_disease_raises strict_runtime
           (serving (Ok (PDict [("disease", PNone)]))
              (Raise RequestError) (Raise RequestError) (Raise RequestError))
           "ZmFrZQ=="))) with (d := [("disease", PNone)]); reflexivity.
Defined.

(** ** Loops *)

Section ForEach.

Variables A B : Type.
Variable f : A -> res B.

Lemma for_each_length (l : list A) (out : list B) :
  for_each f l = Ok out -> List.length out = List.length l.
Proof.
  revert out. induction l as [|a l IH]; simpl; intros out H.
  - injection H as <-. reflexivity.
  - destruct (f a) as [b|e]; simpl in H; [|discriminate].
    destruct (for_each f l) as [out'|e]; simpl in H; [|discriminate].
    injection H as <-. simpl. f_equal. apply IH. reflexivity.
Qed.

Lemma for_each_Forall2 (l : list A) (out : list B) :
  for_each f l = Ok out -> Forall2 (fun a b => f a = Ok b) l out.
Proof.
  revert out. induction l as [|a l IH]; simpl; intros out H.
  - injection H as <-. constructor.
  - destruct (f a) as [b|e] eqn:E; simpl in H; [|discriminate].
    destruct (for_each f l) as [out'|e]; simpl in H; [|discriminate].
    injection H as <-. constructor; [assumption|]. apply IH. reflexivity.
Qed.

Lemma for_each_nil_inv (l : list A) : for_each f l = Ok [] -> l = [].
Proof.
  intros H. apply for_each_length in H. destruct l; [reflexivity|discriminate].
Qed.

(** The loop goes through when every element does. *)
Lemma for_each_total (l : list A) :
  Forall (fun a => exists b, f a = Ok b) l -> exists out, for_each f l = Ok out.
Proof.
  induction 1 as [|a l [b Hb] _ [out IH]]; simpl.
  - eexists; reflexivity.
  - rewrite Hb, IH. simpl. eexists; reflexivity.
Qed.

(** One element that raises spoils the whole loop. *)
Lemma for_each_raises (l : list A) (a : A) (e : exn) :
  In a l -> f a = Raise e -> exists e', for_each f l = Raise e'.
Proof.
  induction l as [|a' l IH]; simpl; [contradiction|].
  intros [->|Hin] Ha.
  - rewrite Ha. eexists; reflexivity.
  - destruct (f a'); simpl; [|eexists; reflexivity].
    destruct (IH Hin Ha) as [e' ->]. simpl. eexists; reflexivity.
Qed.

End ForEach.

(** ** Treatments *)

Section Treatments.

Context {rt : Runtime}.
Variable up : Upstream.
Variable disease : string.

Lemma external_treatments_failure (e : exn) :
  get_treatments up disease = Raise e ->
  external_treatments up disease = [fallback_treatment].
Proof. intros H. unfold external_treatments. rewrite H. reflexivity. Qed.

Lemma external_treatments_not_list (v : pyval) :
  get_treatments up disease = Ok v -> is_list v = false ->
  external_treatments up disease = [fallback_treatment].
Proof.
  intros H Hv. unfold external_treatments. rewrite H.
  destruct v; try reflexivity. discriminate.
Qed.

Lemma external_treatments_list (l : list pyval) :
  get_treatments up disease = Ok (PList l) ->
  external_treatments up disease =
    try_except (for_each treatment_of l) [fallback_treatment].
Proof. intros H. unfold external_treatments. rewrite H. reflexivity. Qed.

Lemma external_treatments_list_shape (l : list pyval) :
  get_treatments up disease = Ok (PList l) ->
  external_treatments up disease = [fallback_treatment] \/
  List.length (external_treatments up disease) = List.length l.
Proof.
  intros H. rewrite (external_treatments_list H).
  destruct (for_each treatment_of l) as [out|e] eqn:E; simpl.
  - right. apply (for_each_length _ _ E).
  - left. reflexivity.
Qed.

Lemma external_treatments_empty_iff :
  external_treatments up disease = [] <->
  get_treatments up disease = Ok (PList []).
Proof.
  split.
  - unfold external_treatments.
    destruct (get_treatments up disease) as [v|e]; simpl; [|discriminate].
    destruct v; simpl; try discriminate.
    destruct (for_each treatment_of items) as [out|e] eqn:E; simpl;
      [|discriminate].
    intros ->. apply for_each_nil_inv in E. now subst.
  - intros H. rewrite (external_treatments_list H). reflexivity.
Qed.

End Treatments.

(** C3 (as stated it fails): a successful answer that is the empty JSON
    array is returned as the empty list, under every runtime. *)
Lemma external_treatments_empty_counterexample :
  ~ exists rt : Runtime,
      external_treatments (rt := rt) empty_shelves "Rust" <> [].
Proof. intros [rt H]. apply H. reflexivity. Qed.

(** C3 (amended): [external_treatments] returns a list for every disease and
    every upstream outcome; on a failed call or an answer that is not a
    sequence it is exactly the single fallback record; on a sequence it is
    that record or one record per element; and it is empty exactly when the
    upstream answered with the empty sequence. *)
Theorem external_treatments_fallback :
  forall (rt : Runtime) (up : Upstream) (disease : string),
    (forall e, get_treatments up disease = Raise e ->
       external_treatments up disease =
         [ {| symptoms := Some "Spots and lesions on leaves";
              organic := Some "Neem oil spray weekly";
              chemical := Some "Copper-based fungicide as directed";
              prevention := Some "Ensure proper spacing and airflow" |} ]) /\
    (forall v, get_treatments up disease = Ok v -> is_list v = false ->
       external_treatments up disease =
         [ {| symptoms := Some "Spots and lesions on leaves";
              organic := Some "Neem oil spray weekly";
              chemical := Some "Copper-based fungicide as directed";
              prevention := Some "Ensure proper spacing and airflow" |} ]) /\
    (forall l, get_treatments up disease = Ok (PList l) ->
       external_treatments up disease = [fallback_treatment] \/
       List.length (external_treatments up disease) = List.length l) /\
    (external_treatments up disease = [] <->
       get_treatments up disease = Ok (PList [])).
Proof.
  intros rt up disease. split; [|split; [|split]].
  - apply external_treatments_failure.
  - apply external_treatments_not_list.
  - apply external_treatments_list_shape.
  - apply external_treatments_empty_iff.
Qed.

Lemma external_treatments_fallback_witness :
  external_treatments (rt := strict_runtime) offline "Rust" =
    [fallback_treatment].
Proof.
  apply (proj1 (external_treatments_fallback strict_runtime offline "Rust"))
    with (e := RequestError). reflexivity.
Defined.

(** ** Products *)

Section Products.

Context {rt : Runtime}.
Variable up : Upstream.
Variable disease : string.

Lemma external_products_failure (e : exn) :
  get_products up disease = Raise e ->
  external_products up disease = fallback_products.
Proof.
  intros H. unfold external_products, products_tried. rewrite H. reflexivity.
Qed.

Lemma external_products_not_list (v : pyval) :
  get_products up disease = Ok v -> is_list v = false ->
  external_products up disease = fallback_products.
Proof.
  intros H Hv. unfold external_products, products_tried. rewrite H.
  destruct v; try reflexivity. discriminate.
Qed.

Lemma external_products_list (l : list pyval) :
  get_products up disease = Ok (PList l) ->
  external_products up disease =
    try_except (for_each product_of l) fallback_products.
Proof.
  intros H. unfold external_products, products_tried. rewrite H. simpl.
  destruct (for_each product_of l); reflexivity.
Qed.

Lemma external_products_empty_iff :
  external_products up disease = [] <->
  get_products up disease = Ok (PList []).
Proof.
  split.
  - unfold external_products, products_tried.
    destruct (get_products up disease) as [v|e]; simpl; [|discriminate].
    destruct v; simpl; try discriminate.
    destruct (for_each product_of items) as [out|e] eqn:E; simpl;
      [|discriminate].
    intros ->. apply for_each_nil_inv in E. now subst.
  - intros H. rewrite (external_products_list H). reflexivity.
Qed.

(** What [price_of] makes of an element. *)
Lemma price_of_spec (it : pyval) :
  price_of it =
    match it with
    | PDict d =>
        match lookup "price" d with
        | None | Some PNone => None
        | Some v =>
            match py_float v with Ok x => Some x | Raise _ => None end
        end
    | _ => None
    end.
Proof.
  unfold price_of. destruct it; try reflexivity. simpl.
  destruct (lookup "price" items) as [v|]; [|reflexivity].
  destruct v; try reflexivity; simpl;
    match goal with
    | |- context [if ?b then _ else _] => destruct b; reflexivity
    | |- context [float_of_str ?s] => destruct (float_of_str s); reflexivity
    end.
Qed.

Lemma product_of_price (it : pyval) (p : ProductItem) :
  product_of it = Ok p -> price p = price_of it.
Proof.
  unfold product_of, new_ProductItem.
  destruct (py_get it "name" (PStr "Product")) as [nm|]; simpl; [|discriminate].
  destruct (py_get it "url" PNone) as [u|]; simpl; [|discriminate].
  destruct (py_get it "image" PNone) as [im|]; simpl; [|discriminate].
  destruct (validate_str nm); simpl; [|discriminate].
  destruct (validate_opt_str u); simpl; [|discriminate].
  destruct (validate_opt_str im); simpl; [|discriminate].
  intros H. injection H as <-. reflexivity.
Qed.

Lemma products_prices (l : list pyval) (out : list ProductItem) :
  for_each product_of l = Ok out -> map price out = map price_of l.
Proof.
  intros H. apply for_each_Forall2 in H.
  induction H as [|it p l out Hp _ IH]; simpl; [reflexivity|].
  rewrite (product_of_price it Hp), IH. reflexivity.
Qed.

End Products.

(** C4: a successful answer that is the empty sequence gives the empty
    list; a failed call or an answer that is not a sequence gives exactly
    the two fallback products "Bio Neem Oil" and "Copper Fungicide" with
    their literal price, url and image; the two results differ. *)
Theorem external_products_empty_vs_fallback :
  forall (rt : Runtime) (up : Upstream) (disease : string),
    (get_products up disease = Ok (PList []) ->
       external_products up disease = []) /\
    (forall e, get_products up disease = Raise e ->
       external_products up disease = fallback_products) /\
    (forall v, get_products up disease = Ok v -> is_list v = false ->
       external_products up disease = fallback_products) /\
    fallback_products =
      [ {| name := "Bio Neem Oil"; price := Some (PyFloat.decimal 1299 2);
           url := Some "https://example.com/neem";
           image := Some "https://images.unsplash.com/photo-1524594081293-190a2fe0baae?q=80&w=400" |};
        {| name := "Copper Fungicide"; price := Some (PyFloat.decimal 1849 2);
           url := Some "https://example.com/copper";
           image := Some "https://images.unsplash.com/photo-1542291026-7eec264c27ff?q=80&w=400" |} ] /\
    fallback_products <> [].
Proof.
  intros rt up disease. split; [|split; [|split; [|split]]].
  - intros H. apply external_products_empty_iff. exact H.
  - apply external_products_failure.
  - apply external_products_not_list.
  - reflexivity.
  - discriminate.
Qed.

Lemma external_products_empty_vs_fallback_witness :
  external_products (rt := strict_runtime) empty_shelves "Rust" = [] /\
  external_products (rt := strict_runtime) offline "Rust" = fallback_products.
Proof.
  split.
  - apply (proj1 (external_products_empty_vs_fallback
                    strict_runtime empty_shelves "Rust")). reflexivity.
  - apply (proj1 (proj2 (external_products_empty_vs_fallback
                    strict_runtime offline "Rust"))) with (e := RequestError).
    reflexivity.
Defined.

(** C9 (as stated it fails): an upstream product priced [-1] comes back
    with the price [-1.0], under every runtime. *)
Lemma external_products_negative_price_counterexample :
  ~ exists rt : Runtime,
      Forall price_ok
        (external_products (rt := rt)
           (serving (Raise RequestError) (Raise RequestError)
              (Ok (PList [PDict [("name", PStr "Spray"); ("price", PInt (-1))]]))
              (Raise RequestError))
           "Rust").
Proof.
  intros [rt H]. inversion H as [|p l Hp _ E]; subst.
  vm_compute in Hp. discriminate Hp.
Qed.

(** C9 (amended): the two fallback products have a non-negative price; a
    product mapped from an upstream element has the price null when the
    element has no price, a null price or one that [float] rejects, and
    otherwise the value [float] gives, of either sign. *)
Theorem external_products_price :
  forall (rt : Runtime) (up : Upstream) (disease : string),
    Forall price_ok fallback_products /\
    (forall l out,
       get_products up disease = Ok (PList l) ->
       for_each product_of l = Ok out ->
       external_products up disease = out /\
       map price out = map price_of l) /\
    (forall it,
       price_of it =
         match it with
         | PDict d =>
             match lookup "price" d with
             | None | Some PNone => None
             | Some v =>
                 match py_float v with Ok x => Some x | Raise _ => None end
             end
         | _ => None
         end).
Proof.
  intros rt up disease. split; [|split].
  - repeat constructor.
  - intros l out H E. split.
    + rewrite (external_products_list up disease H), E. reflexivity.
    + apply products_prices. exact E.
  - apply price_of_spec.
Qed.

Lemma external_products_price_witness :
  external_products (rt := strict_runtime)
    (serving (Raise RequestError) (Raise RequestError)
       (Ok (PList [PDict [("name", PStr "Spray"); ("price", PInt (-1))]]))
       (Raise RequestError))
    "Rust" =
    [ {| name := "Spray"; price := Some (PyFloat.of_int (-1));
         url := None; image := None |} ].
Proof.
  apply (proj1 (proj2 (external_products_price strict_runtime
    (serving (Raise RequestError) (Raise RequestError)
       (Ok (PList [PDict [("name", PStr "Spray"); ("price", PInt (-1))]]))
       (Raise RequestError)) "Rust"))
    [PDict [("name", PStr "Spray"); ("price", PInt (-1))]]); reflexivity.
Defined.

(** ** Tutorials *)

Section Tutorials.

Context {rt : Runtime}.
Variable up : Upstream.
Variable disease : string.

Lemma external_tutorials_failure (e : exn) :
  get_tutorials up disease = Raise e ->
  external_tutorials up disease = fallback_tutorials disease.
Proof.
  intros H. unfold external_tutorials, tutorials_tried. rewrite H. reflexivity.
Qed.

Lemma external_tutorials_not_list (v : pyval) :
  get_tutorials up disease = Ok v -> is_list v = false ->
  external_tutorials up disease = fallback_tutorials disease.
Proof.
  intros H Hv. unfold external_tutorials, tutorials_tried. rewrite H.
  destruct v; try reflexivity. discriminate.
Qed.

Lemma external_tutorials_list (l : list pyval) :
  get_tutorials up disease = Ok (PList l) ->
  external_tutorials up disease =
    try_except (for_each tutorial_of l) (fallback_tutorials disease).
Proof.
  intros H. unfold external_tutorials, tutorials_tried. rewrite H. simpl.
  destruct (for_each tutorial_of l); reflexivity.
Qed.

Lemma external_tutorials_empty_iff :
  external_tutorials up disease = [] <->
  get_tutorials up disease = Ok (PList []).
Proof.
  split.
  - unfold external_tutorials, tutorials_tried.
    destruct (get_tutorials up disease) as [v|e]; simpl; [|discriminate].
    destruct v; simpl; try discriminate.
    destruct (for_each tutorial_of items) as [out|e] eqn:E; simpl;
      [|discriminate].
    intros ->. apply for_each_nil_inv in E. now subst.
  - intros H. rewrite (external_tutorials_list H). reflexivity.
Qed.

End Tutorials.

(** C7 (as stated it fails): with the upstream unreachable the two fallback
    tutorials carry two different video ids, under every runtime. *)
Lemma external_tutorials_video_id_counterexample :
  ~ exists (rt : Runtime) (v : option string),
      map videoId (external_tutorials (rt := rt) offline "Rust") = [v; v].
Proof. intros [rt [v H]]. vm_compute in H. congruence. Qed.

(** C7 (amended): on a failed call or an answer that is not a sequence,
    [external_tutorials] returns exactly two tutorials whose titles are
    "How to treat <disease>" and "Preventing <disease> in your garden", and
    whose video id, thumbnail and url are literal constants built on two
    different video ids, [dQw4w9WgXcQ] and [9bZkp7q19f0]. *)
Theorem external_tutorials_fallback :
  forall (rt : Runtime) (up : Upstream) (disease : string),
    (exists e, get_tutorials up disease = Raise e) \/
    (exists v, get_tutorials up disease = Ok v /\ is_list v = false) ->
    external_tutorials up disease =
      [ {| title := "How to treat " ++ disease;
           videoId := Some "dQw4w9WgXcQ";
           thumbnail := Some "https://img.youtube.com/vi/dQw4w9WgXcQ/hqdefault.jpg";
           tut_url := Some "https://www.youtube.com/watch?v=dQw4w9WgXcQ" |};
        {| title := "Preventing " ++ disease ++ " in your garden";
           videoId := Some "9bZkp7q19f0";
           thumbnail := Some "https://img.youtube.com/vi/9bZkp7q19f0/hqdefault.jpg";
           tut_url := Some "https://www.youtube.com/watch?v=9bZkp7q19f0" |} ].
Proof.
  intros rt up disease [[e H]|[v [H Hv]]].
  - apply (external_tutorials_failure up disease H).
  - apply (external_tutorials_not_list up disease H Hv).
Qed.

Lemma external_tutorials_fallback_witness :
  external_tutorials (rt := strict_runtime) offline "Rust" =
    [ {| title := "How to treat Rust";
         videoId := Some "dQw4w9WgXcQ";
         thumbnail := Some "https://img.youtube.com/vi/dQw4w9WgXcQ/hqdefault.jpg";
         tut_url := Some "https://www.youtube.com/watch?v=dQw4w9WgXcQ" |};
      {| title := "Preventing Rust in your garden";
         videoId := Some "9bZkp7q19f0";
         thumbnail := Some "https://img.youtube.com/vi/9bZkp7q19f0/hqdefault.jpg";
         tut_url := Some "https://www.youtube.com/watch?v=9bZkp7q19f0" |} ].
Proof.
  apply (external_tutorials_fallback strict_runtime offline "Rust").
  left. exists RequestError. reflexivity.
Defined.



(** ** The prevention field *)

Section Prevention.

Context {rt : Runtime}.

Lemma treatment_of_prevention (it : pyval) (t : TreatmentItem) :
  treatment_of it = Ok t ->
  exists d, it = PDict d /\
    validate_opt_str (py_or (doc_get d "prevention") (doc_get d "preventive"))
      = Ok (prevention t).
Proof.
  destruct it; try discriminate. rename items into d.
  intros H. exists d. split; [reflexivity|].
  unfold treatment_of in H. simpl in H.
  unfold py_or, doc_get.
  set (p1 := match lookup "prevention" d with Some v => v | None => PNone end) in *.
  set (p2 := match lookup "preventive" d with Some v => v | None => PNone end) in *.
  assert (E : (if truthy p1 then Ok p1 else Ok p2) =
              Ok (if truthy p1 then p1 else p2)) by (destruct (truthy p1); reflexivity).
  rewrite E in H. simpl in H. clear E.
  unfold new_TreatmentItem in H.
  destruct (validate_opt_str _) in H; simpl in H; [|discriminate].
  destruct (validate_opt_str _) in H; simpl in H; [|discriminate].
  destruct (validate_opt_str _) in H; simpl in H; [|discriminate].
  destruct (validate_opt_str (if truthy p1 then p1 else p2)) as [pv|] eqn:V;
    simpl in H; [|discriminate].
  injection H as <-. reflexivity.
Qed.

End Prevention.

(** C6 (as stated it fails): an element whose [prevention] is the empty
    string, present and not null, gets the value of [preventive], under
    every runtime. *)
Lemma prevention_empty_string_counterexample :
  ~ exists rt : Runtime,
      map prevention
        (external_treatments (rt := rt)
           (serving (Raise RequestError)
              (Ok (PList [PDict [("prevention", PStr "");
                                 ("preventive", PStr "Rotate crops")]]))
              (Raise RequestError) (Raise RequestError))
           "Rust") = [Some ""].
Proof. intros [rt H]. vm_compute in H. discriminate H. Qed.

(** C6 (amended): when [external_treatments] maps a sequence, each
    element's prevention is the value of [prevention or preventive]: the
    [prevention] key when its value is truthy (a non-empty string is), and
    the [preventive] key when [prevention] is absent, null or otherwise
    falsy, as the empty string is. *)
Theorem prevention_first_truthy :
  forall (rt : Runtime) (up : Upstream) (disease : string)
         (l : list pyval) (out : list TreatmentItem),
    get_treatments up disease = Ok (PList l) ->
    for_each treatment_of l = Ok out ->
    external_treatments up disease = out /\
    Forall2
      (fun it t =>
         exists d, it = PDict d /\
           validate_opt_str
             (py_or (doc_get d "prevention") (doc_get d "preventive"))
             = Ok (prevention t) /\
           (forall s, lookup "prevention" d = Some (PStr s) -> s <> "" ->
              prevention t = Some s) /\
           (truthy (doc_get d "prevention") = false ->
              validate_opt_str (doc_get d "preventive") = Ok (prevention t)))
      l out.
Proof.
  intros rt up disease l out H E. split.
  - rewrite (external_treatments_list up disease H), E. reflexivity.
  - clear H. apply for_each_Forall2 in E.
    induction E as [|it t l out Ht _ IH]; [constructor|].
    constructor; [|exact IH].
    destruct (treatment_of_prevention it Ht) as [d [-> V]].
    exists d. split; [reflexivity|]. split; [exact V|]. split.
    + intros s Hs Hne. unfold py_or, doc_get in V. rewrite Hs in V.
      simpl in V. destruct (String.eqb_spec s ""); [contradiction|].
      simpl in V. injection V as V. symmetry. exact V.
    + intros F. unfold py_or in V. rewrite F in V. exact V.
Qed.

Lemma prevention_first_truthy_witness :
  external_treatments (rt := strict_runtime)
    (serving (Raise RequestError)
       (Ok (PList [PDict [("prevention", PStr "");
                          ("preventive", PStr "Rotate crops")]]))
       (Raise RequestError) (Raise RequestError))
    "Rust" =
    [ {| symptoms := None; organic := None; chemical := None;
         prevention := Some "Rotate crops" |} ].
Proof.
  apply (prevention_first_truthy strict_runtime
    (serving (Raise RequestError)
       (Ok (PList [PDict [("prevention", PStr "");
                          ("preventive", PStr "Rotate crops")]]))
       (Raise RequestError) (Raise RequestError))
    "Rust"
    (l := [PDict [("prevention", PStr ""); ("preventive", PStr "Rotate crops")]]));
    reflexivity.
Defined.

(** ** The full analysis *)

Section Analyze.

Context {rt : Runtime}.
Variable up : Upstream.

Lemma analyze_returns (db : option Database) (image : string)
    (r : PredictResponse) :
  external_predict up image = Ok r ->
  analyze up db image =
    Ok ({| result := r;
           treatments := external_treatments up (pr_disease r);
           products := external_products up (pr_disease r);
           tutorials := external_tutorials up (pr_disease r) |},
        persist db r).
Proof. intros H. unfold analyze. rewrite H. reflexivity. Qed.

Lemma analyze_raises (db : option Database) (image : string) (e : exn) :
  external_predict up image = Raise e -> analyze up db image = Raise e.
Proof. intros H. unfold analyze. rewrite H. reflexivity. Qed.

End Analyze.

(** C5 (as stated it fails): with the classifier unreachable and the three
    content services answering with an empty array, the bundle holds three
    empty sequences, under every runtime. *)
Lemma analyze_empty_sequences_counterexample :
  ~ exists (rt : Runtime) (b : AnalyzeResponse) (st : persisted),
      analyze (rt := rt) empty_shelves None "ZmFrZQ==" = Ok (b, st) /\
      treatments b <> [] /\ products b <> [] /\ tutorials b <> [].
Proof.
  intros [rt [b [st [H [Ht _]]]]]. vm_compute in H.
  injection H as <- _. apply Ht. reflexivity.
Qed.

(** C5 (amended): whenever [external_predict] returns a result, [analyze]
    returns the bundle of that result and of the three lookups on its
    disease; the severity of the result is the threshold function of its
    confidence; each of the three sequences is empty exactly when its
    upstream call answered with the empty sequence, and non-empty
    otherwise; and the bundle is the same whatever store is configured and
    whether the insert succeeds or fails. *)
Theorem analyze_bundle :
  forall (rt : Runtime) (up : Upstream) (db : option Database)
         (image : string) (r : PredictResponse),
    external_predict up image = Ok r ->
    exists b st,
      analyze up db image = Ok (b, st) /\
      result b = r /\
      pr_severity (result b) = Some (severity_of (pr_confidence (result b))) /\
      treatments b = external_treatments up (pr_disease r) /\
      products b = external_products up (pr_disease r) /\
      tutorials b = external_tutorials up (pr_disease r) /\
      (treatments b = [] <->
         get_treatments up (pr_disease r) = Ok (PList [])) /\
      (products b = [] <->
         get_products up (pr_disease r) = Ok (PList [])) /\
      (tutorials b = [] <->
         get_tutorials up (pr_disease r) = Ok (PList [])) /\
      (forall db', bundle_of (analyze up db' image) = Ok b).
Proof.
  intros rt up db image r H.
  eexists. eexists. split; [apply (analyze_returns up db image H)|].
  simpl. split; [reflexivity|].
  split; [apply (external_predict_severity up image H)|].
  split; [reflexivity|]. split; [reflexivity|]. split; [reflexivity|].
  split; [apply external_treatments_empty_iff|].
  split; [apply external_products_empty_iff|].
  split; [apply external_tutorials_empty_iff|].
  intros db'. rewrite (analyze_returns up db' image H). reflexivity.
Qed.

Lemma analyze_bundle_witness :
  exists b st,
    analyze (rt := strict_runtime) offline (Some broken_store) "ZmFrZQ==" =
      Ok (b, st) /\
    result b = {| pr_disease := "Leaf Blight"; pr_confidence := lit_0_87;
                  pr_organ := Some "leaf"; pr_severity := Some "high" |} /\
    treatments b <> [] /\ products b <> [] /\ tutorials b <> [].
Proof.
  destruct (analyze_bundle strict_runtime offline (Some broken_store)
              "ZmFrZQ=="
              (r := {| pr_disease := "Leaf Blight"; pr_confidence := lit_0_87;
                       pr_organ := Some "leaf"; pr_severity := Some "high" |})
              eq_refl)
    as [b [st [Ha [Hr [_ [Ht [Hp [Hu _]]]]]]]].
  exists b, st. split; [exact Ha|]. split; [exact Hr|].
  rewrite Ht, Hp, Hu. repeat split; discriminate.
Defined.

(** ** Recent analyses *)

(** C8: with no store configured, and likewise when the store query
    raises, [recent] returns exactly the four mock records, whatever the
    limit. *)
Theorem recent_mock :
  forall (limit : Z),
    recent None limit =
      [ [ ("disease", PStr "Leaf Blight");
          ("confidence", PFloat (PyFloat.decimal 87 2));
          ("severity", PStr "high") ];
        [ ("disease", PStr "Powdery Mildew");
          ("confidence", PFloat (PyFloat.decimal 76 2));
          ("severity", PStr "medium") ];
        [ ("disease", PStr "Rust");
          ("confidence", PFloat (PyFloat.decimal 63 2));
          ("severity", PStr "medium") ];
        [ ("disease", PStr "Healthy");
          ("confidence", PFloat (PyFloat.decimal 94 2));
          ("severity", PStr "low") ] ] /\
    (forall db e, find_recent db limit = Raise e ->
       recent (Some db) limit = recent None limit).
Proof.
  intros limit. split; [reflexivity|].
  intros db e H. unfold recent. rewrite H. reflexivity.
Qed.

Lemma recent_mock_witness :
  recent (Some broken_store) 5 = recent None 5.
Proof.
  apply (proj2 (recent_mock 5)) with (e := StoreError). reflexivity.
Defined.

(** ** Further properties of the helpers *)

(** Above a positive float [lit], and below [b]: then [b] is above [lit]. *)
Lemma gt_le_trans (m : positive) (e : Z) (a b : float) :
  PyFloat.gt a (S754_finite false m e) = true ->
  PyFloat.le a b = true ->
  PyFloat.gt b (S754_finite false m e) = true.
Proof.
  unfold PyFloat.gt, PyFloat.le, SFltb, SFleb.
  destruct a as [sa|sa| |sa ma ea]; simpl; try discriminate.
  - destruct sa; try discriminate. intros _.
    destruct b as [sb|sb| |sb mb eb]; simpl; try discriminate;
      destruct sb; try discriminate; reflexivity.
  - destruct sa; try discriminate.
    destruct b as [sb|sb| |sb mb eb]; simpl; try discriminate;
      try (destruct sb; try discriminate; reflexivity).
    destruct sb; try discriminate.
    change (Pos.compare_cont Eq ?x ?y) with (Pos.compare x y).
    destruct (Z.compare_spec e ea), (Z.compare_spec ea eb),
      (Z.compare_spec e eb); try discriminate; try lia; try reflexivity;
      subst;
      destruct (Pos.compare_spec m ma), (Pos.compare_spec ma mb),
        (Pos.compare_spec m mb); try discriminate; try lia; reflexivity.
Qed.

(** X1: A higher confidence never gets a lower severity. *)
Theorem severity_monotone :
  forall a b : float,
    PyFloat.le a b = true ->
    (severity_rank (severity_of a) <= severity_rank (severity_of b))%nat.
Proof.
  intros a b L.
  change (severity_rank "high") with 2%nat.
  destruct (severity_of_cases a) as [[G S]|[[G [G' S]]|[G [G' S]]]]; rewrite S.
  - pose proof (gt_le_trans _ _ _ _ G L) as Gb.
    apply severity_high_iff in Gb. rewrite Gb. apply le_n.
  - change (severity_rank "medium") with 1%nat.
    pose proof (gt_le_trans _ _ _ _ G' L) as Gb. fold lit_0_6 in Gb.
    destruct (severity_of_cases b) as [[H T]|[[H [H' T]]|[H [H' T]]]];
      rewrite T.
    + change (severity_rank "high") with 2%nat. lia.
    + apply le_n.
    + congruence.
  - change (severity_rank "low") with 0%nat. apply Nat.le_0_l.
Qed.

Lemma severity_monotone_witness :
  (severity_rank (severity_of lit_0_63) <=
   severity_rank (severity_of lit_0_94))%nat.
Proof. apply (severity_monotone lit_0_63 lit_0_94). reflexivity. Defined.

Section PredictMore.

Context {rt : Runtime}.
Variable up : Upstream.
Variable image : string.

(** X2: A payload whose [disease] is a string (or missing) and whose
    [confidence] is a float (or missing) is passed through, with the
    defaults "Unknown" and 0.5. *)
Theorem external_predict_passes_through :
  forall (d : pydict) (s : string) (x : float),
    post_predict up image = Ok (PDict d) ->
    lookup "disease" d = Some (PStr s) \/
      (lookup "disease" d = None /\ s = "Unknown") ->
    lookup "confidence" d = Some (PFloat x) \/
      (lookup "confidence" d = None /\ x = PyFloat.decimal 5 1) ->
    external_predict up image =
      Ok {| pr_disease := s; pr_confidence := x;
            pr_organ := Some "leaf"; pr_severity := Some (severity_of x) |}.
Proof.
  intros d s x H Hd Hc. unfold external_predict, predicted. rewrite H. simpl.
  destruct Hd as [Hd|[Hd ->]], Hc as [Hc|[Hc ->]]; rewrite Hd, Hc; reflexivity.
Qed.

(** X3: The only way [external_predict] raises: the upstream answered with an
    object whose [disease] is present and is not a string, and the error is
    the validation error of the response model. *)
Theorem external_predict_raises_only_on_disease :
  forall e : exn,
    external_predict up image = Raise e ->
    e = ValidationError /\
    exists d v, post_predict up image = Ok (PDict d) /\
                lookup "disease" d = Some v /\
                forall s, v <> PStr s.
Proof.
  intros e. unfold external_predict, predicted.
  destruct (post_predict up image) as [data|e0]; simpl; [|discriminate].
  destruct data; simpl; try discriminate. rename items into d.
  destruct (py_float _) as [c|e1]; simpl; [|discriminate].
  unfold new_PredictResponse.
  destruct (lookup "disease" d) as [v|] eqn:Hd; [|discriminate].
  destruct v; simpl; try discriminate;
    try (destruct (str_of_other _); simpl; [discriminate|]);
    intros H; injection H as <-; (split; [reflexivity|]);
    exists d; eexists; (split; [reflexivity|]); (split; [exact Hd|]);
    intros s; discriminate.
Qed.

(** X4: Every result carries the organ "leaf" and one of the three labels. *)
Theorem external_predict_labels :
  forall r : PredictResponse,
    external_predict up image = Ok r ->
    pr_organ r = Some "leaf" /\
    (pr_severity r = Some "low" \/ pr_severity r = Some "medium" \/
     pr_severity r = Some "high").
Proof.
  intros r H. destruct (external_predict_severity up image H) as [S O].
  split; [exact O|]. rewrite S.
  destruct (severity_of_cases (pr_confidence r))
    as [[_ E]|[[_ [_ E]]|[_ [_ E]]]]; rewrite E; auto.
Qed.

End PredictMore.

Lemma external_predict_passes_through_witness :
  external_predict (rt := strict_runtime)
    (serving (Ok (PDict [("confidence", PFloat lit_0_76)]))
       (Raise RequestError) (Raise RequestError) (Raise RequestError))
    "ZmFrZQ==" =
    Ok {| pr_disease := "Unknown"; pr_confidence := lit_0_76;
          pr_organ := Some "leaf"; pr_severity := Some "medium" |}.
Proof.
  apply (external_predict_passes_through (rt := strict_runtime)
    (serving (Ok (PDict [("confidence", PFloat lit_0_76)]))
       (Raise RequestError) (Raise RequestError) (Raise RequestError))
    "ZmFrZQ==" (d := [("confidence", PFloat lit_0_76)])).
  - reflexivity.
  - right. split; reflexivity.
  - left. reflexivity.
Defined.

Lemma external_predict_raises_only_on_disease_witness :
  ValidationError = ValidationError /\
  exists d v,
    post_predict
      (serving (Ok (PDict [("disease", PInt 3)]))
         (Raise RequestError) (Raise RequestError) (Raise RequestError))
      "ZmFrZQ==" = Ok (PDict d) /\
    lookup "disease" d = Some v /\ forall s, v <> PStr s.
Proof.
  apply (external_predict_raises_only_on_disease (rt := strict_runtime)
    (serving (Ok (PDict [("disease", PInt 3)]))
       (Raise RequestError) (Raise RequestError) (Raise RequestError))
    "ZmFrZQ=="). reflexivity.
Defined.

Lemma external_predict_labels_witness :
  Some "leaf" = Some "leaf" /\
  (Some "high" = Some "low" \/ Some "high" = Some "medium" \/
   Some "high" = Some "high").
Proof.
  apply (external_predict_labels (rt := strict_runtime) offline "ZmFrZQ=="
    (r := {| pr_disease := "Leaf Blight"; pr_confidence := lit_0_87;
             pr_organ := Some "leaf"; pr_severity := Some "high" |})).
  reflexivity.
Defined.

Section Lookups.

Context {rt : Runtime}.
Variable up : Upstream.
Variable disease : string.

Lemma treatment_of_fields (it : pyval) (t : TreatmentItem) :
  treatment_of it = Ok t ->
  exists d, it = PDict d /\
    validate_opt_str (doc_get d "symptoms") = Ok (symptoms t) /\
    validate_opt_str (doc_get d "organic") = Ok (organic t) /\
    validate_opt_str (doc_get d "chemical") = Ok (chemical t).
Proof.
  destruct it; try discriminate. rename items into d.
  intros H. exists d. split; [reflexivity|].
  unfold treatment_of in H. simpl in H. unfold doc_get.
  destruct (truthy _) in H; simpl in H; unfold new_TreatmentItem in H;
    destruct (validate_opt_str
                match lookup "symptoms" d with Some v => v | None => PNone end);
    simpl in H; try discriminate;
    destruct (validate_opt_str
                match lookup "organic" d with Some v => v | None => PNone end);
    simpl in H; try discriminate;
    destruct (validate_opt_str
                match lookup "chemical" d with Some v => v | None => PNone end);
    simpl in H; try discriminate;
    destruct (validate_opt_str _) in H; simpl in H; try discriminate;
    injection H as <-; repeat split; reflexivity.
Qed.

Lemma validate_opt_str_text (o : option pyval) (r : option string) :
  validate_opt_str (match o with Some v => v | None => PNone end) = Ok r ->
  (o = None \/ o = Some PNone -> r = None) /\
  (forall s, o = Some (PStr s) -> r = Some s).
Proof.
  intros H. split.
  - intros [-> | ->]; simpl in H; injection H as <-; reflexivity.
  - intros s ->. simpl in H. injection H as <-. reflexivity.
Qed.

(** X5: A sequence whose elements all map gives one record per element, in
    order; a field that is a string is copied, a field that is missing or
    null is null. *)
Theorem external_treatments_maps_fields :
  forall (l : list pyval) (out : list TreatmentItem),
    get_treatments up disease = Ok (PList l) ->
    for_each treatment_of l = Ok out ->
    external_treatments up disease = out /\
    List.length out = List.length l /\
    Forall2
      (fun it t =>
         exists d, it = PDict d /\
           (forall s, lookup "symptoms" d = Some (PStr s) ->
              symptoms t = Some s) /\
           (lookup "symptoms" d = None \/ lookup "symptoms" d = Some PNone ->
              symptoms t = None) /\
           (forall s, lookup "organic" d = Some (PStr s) ->
              organic t = Some s) /\
           (lookup "organic" d = None \/ lookup "organic" d = Some PNone ->
              organic t = None) /\
           (forall s, lookup "chemical" d = Some (PStr s) ->
              chemical t = Some s) /\
           (lookup "chemical" d = None \/ lookup "chemical" d = Some PNone ->
              chemical t = None))
      l out.
Proof.
  intros l out H E. split; [|split].
  - rewrite (external_treatments_list up disease H), E. reflexivity.
  - apply (for_each_length _ _ E).
  - clear H. apply for_each_Forall2 in E.
    induction E as [|it t l out Ht _ IH]; [constructor|].
    constructor; [|exact IH].
    destruct (treatment_of_fields it Ht) as [d [-> [S [O C]]]].
    exists d. split; [reflexivity|].
    destruct (validate_opt_str_text _ S) as [S1 S2].
    destruct (validate_opt_str_text _ O) as [O1 O2].
    destruct (validate_opt_str_text _ C) as [C1 C2].
    repeat split; assumption.
Qed.

(** X6: One element that is not a JSON object makes the whole answer the
    single fallback record: the records mapped before it are dropped. *)
Theorem external_treatments_poisoned :
  forall (l : list pyval) (it : pyval),
    get_treatments up disease = Ok (PList l) ->
    In it l ->
    (forall d, it <> PDict d) ->
    external_treatments up disease = [fallback_treatment].
Proof.
  intros l it H Hin Hnd.
  rewrite (external_treatments_list up disease H).
  assert (R : treatment_of it = Raise AttributeError).
  { destruct it; try reflexivity. exfalso. apply (Hnd items). reflexivity. }
  destruct (for_each_raises treatment_of l it Hin R) as [e ->]. reflexivity.
Qed.

Lemma product_of_name (it : pyval) (p : ProductItem) :
  product_of it = Ok p ->
  exists d, it = PDict d /\
    validate_str
      (match lookup "name" d with Some v => v | None => PStr "Product" end)
      = Ok (name p) /\
    validate_opt_str (doc_get d "url") = Ok (url p) /\
    validate_opt_str (doc_get d "image") = Ok (image p).
Proof.
  destruct it; try discriminate. rename items into d.
  intros H. exists d. split; [reflexivity|].
  unfold product_of, new_ProductItem in H. simpl in H. unfold doc_get.
  destruct (validate_str _) in H |- *; simpl in H; [|discriminate].
  destruct (validate_opt_str
              match lookup "url" d with Some v => v | None => PNone end);
    simpl in H; [|discriminate].
  destruct (validate_opt_str
              match lookup "image" d with Some v => v | None => PNone end);
    simpl in H; [|discriminate].
  injection H as <-. repeat split; reflexivity.
Qed.

(** X7: A sequence whose elements all map gives one product per element, in
    order: the name is the element's, "Product" when the key is missing;
    the price is the defensive [price_of] and a price that cannot be
    converted leaves the product in the list with a null price. *)
Theorem external_products_maps_fields :
  forall (l : list pyval) (out : list ProductItem),
    get_products up disease = Ok (PList l) ->
    for_each product_of l = Ok out ->
    external_products up disease = out /\
    List.length out = List.length l /\
    Forall2
      (fun it p =>
         exists d, it = PDict d /\
           (lookup "name" d = None -> name p = "Product") /\
           (forall s, lookup "name" d = Some (PStr s) -> name p = s) /\
           (forall v e, lookup "price" d = Some v -> py_float v = Raise e ->
              price p = None) /\
           (forall s, lookup "url" d = Some (PStr s) -> url p = Some s) /\
           (forall s, lookup "image" d = Some (PStr s) -> image p = Some s))
      l out.
Proof.
  intros l out H E. split; [|split].
  - rewrite (external_products_list up disease H), E. reflexivity.
  - apply (for_each_length _ _ E).
  - clear H. apply for_each_Forall2 in E.
    induction E as [|it p l out Hp _ IH]; [constructor|].
    constructor; [|exact IH].
    pose proof (product_of_price it Hp) as P.
    destruct (product_of_name it Hp) as [d [-> [N [U I]]]].
    exists d. split; [reflexivity|].
    destruct (validate_opt_str_text _ U) as [_ U2].
    destruct (validate_opt_str_text _ I) as [_ I2].
    split; [|split; [|split; [|split]]]; try assumption.
    + intros Hn. rewrite Hn in N. simpl in N. injection N as <-. reflexivity.
    + intros s Hn. rewrite Hn in N. simpl in N. injection N as <-. reflexivity.
    + intros v e Hv He. rewrite P, price_of_spec, Hv.
      destruct v; try reflexivity; rewrite He; reflexivity.
Qed.

(** X8: An element that is not a JSON object, or whose [name] is null, makes
    the whole answer the two fallback products. *)
Theorem external_products_poisoned :
  forall (l : list pyval) (it : pyval),
    get_products up disease = Ok (PList l) ->
    In it l ->
    (forall d, it <> PDict d) \/
      (exists d, it = PDict d /\ lookup "name" d = Some PNone) ->
    external_products up disease = fallback_products.
Proof.
  intros l it H Hin Hbad.
  rewrite (external_products_list up disease H).
  assert (R : exists e, product_of it = Raise e).
  { destruct Hbad as [Hnd|[d [-> Hn]]].
    - destruct it; try (eexists; reflexivity).
      exfalso. apply (Hnd items). reflexivity.
    - unfold product_of, new_ProductItem. simpl. rewrite Hn. simpl.
      eexists; reflexivity. }
  destruct R as [e R].
  destruct (for_each_raises product_of l it Hin R) as [e' ->]. reflexivity.
Qed.

Lemma tutorial_of_fields (it : pyval) (t : TutorialItem) :
  tutorial_of it = Ok t ->
  exists d, it = PDict d /\
    validate_str
      (match lookup "title" d with Some v => v | None => PStr "Tutorial" end)
      = Ok (title t) /\
    validate_opt_str (doc_get d "videoId") = Ok (videoId t) /\
    validate_opt_str (doc_get d "thumbnail") = Ok (thumbnail t) /\
    validate_opt_str (doc_get d "url") = Ok (tut_url t).
Proof.
  destruct it; try discriminate. rename items into d.
  intros H. exists d. split; [reflexivity|].
  unfold tutorial_of, new_TutorialItem in H. simpl in H. unfold doc_get.
  destruct (validate_str _) in H |- *; simpl in H; [|discriminate].
  destruct (validate_opt_str
              match lookup "videoId" d with Some v => v | None => PNone end);
    simpl in H; [|discriminate].
  destruct (validate_opt_str
              match lookup "thumbnail" d with Some v => v | None => PNone end);
    simpl in H; [|discriminate].
  destruct (validate_opt_str
              match lookup "url" d with Some v => v | None => PNone end);
    simpl in H; [|discriminate].
  injection H as <-. repeat split; reflexivity.
Qed.

(** X9: A sequence whose elements all map gives one tutorial per element, in
    order, the title being "Tutorial" when the key is missing; a sequence
    with an element that does not map gives the two fallback tutorials. *)
Theorem external_tutorials_maps_fields :
  forall (l : list pyval),
    get_tutorials up disease = Ok (PList l) ->
    (forall out, for_each tutorial_of l = Ok out ->
       external_tutorials up disease = out /\
       List.length out = List.length l /\
       Forall2
         (fun it t =>
            exists d, it = PDict d /\
              (lookup "title" d = None -> title t = "Tutorial") /\
              (forall s, lookup "title" d = Some (PStr s) -> title t = s) /\
              (forall s, lookup "videoId" d = Some (PStr s) ->
                 videoId t = Some s) /\
              (forall s, lookup "thumbnail" d = Some (PStr s) ->
                 thumbnail t = Some s) /\
              (forall s, lookup "url" d = Some (PStr s) ->
                 tut_url t = Some s))
         l out) /\
    (forall it, In it l -> (forall d, it <> PDict d) ->
       external_tutorials up disease = fallback_tutorials disease).
Proof.
  intros l H. split.
  - intros out E. split; [|split].
    + rewrite (external_tutorials_list up disease H), E. reflexivity.
    + apply (for_each_length _ _ E).
    + clear H. apply for_each_Forall2 in E.
      induction E as [|it t l out Ht _ IH]; [constructor|].
      constructor; [|exact IH].
      destruct (tutorial_of_fields it Ht) as [d [-> [T [V [Th U]]]]].
      exists d. split; [reflexivity|].
      destruct (validate_opt_str_text _ V) as [_ V2].
      destruct (validate_opt_str_text _ Th) as [_ Th2].
      destruct (validate_opt_str_text _ U) as [_ U2].
      split; [|split; [|split; [|split]]]; try assumption.
      * intros Hn. rewrite Hn in T. simpl in T. injection T as <-. reflexivity.
      * intros s Hn. rewrite Hn in T. simpl in T. injection T as <-.
        reflexivity.
  - intros it Hin Hnd.
    rewrite (external_tutorials_list up disease H).
    assert (R : tutorial_of it = Raise AttributeError).
    { destruct it; try reflexivity. exfalso. apply (Hnd items). reflexivity. }
    destruct (for_each_raises tutorial_of l it Hin R) as [e ->]. reflexivity.
Qed.

End Lookups.

Lemma external_treatments_maps_fields_witness :
  external_treatments (rt := strict_runtime)
    (serving (Raise RequestError)
       (Ok (PList [PDict [("symptoms", PStr "Orange pustules");
                          ("organic", PNone)]]))
       (Raise RequestError) (Raise RequestError))
    "Rust" =
    [ {| symptoms := Some "Orange pustules"; organic := None;
         chemical := None; prevention := None |} ].
Proof.
  apply (external_treatments_maps_fields (rt := strict_runtime)
    (serving (Raise RequestError)
       (Ok (PList [PDict [("symptoms", PStr "Orange pustules");
                          ("organic", PNone)]]))
       (Raise RequestError) (Raise RequestError))
    "Rust"
    (l := [PDict [("symptoms", PStr "Orange pustules"); ("organic", PNone)]]));
    reflexivity.
Defined.

Lemma external_treatments_poisoned_witness :
  external_treatments (rt := strict_runtime)
    (serving (Raise RequestError)
       (Ok (PList [PDict [("symptoms", PStr "Orange pustules")];
                   PStr "n/a"]))
       (Raise RequestError) (Raise RequestError))
    "Rust" = [fallback_treatment].
Proof.
  apply (external_treatments_poisoned (rt := strict_runtime)
    (serving (Raise RequestError)
       (Ok (PList [PDict [("symptoms", PStr "Orange pustules")];
                   PStr "n/a"]))
       (Raise RequestError) (Raise RequestError))
    "Rust"
    (l := [PDict [("symptoms", PStr "Orange pustules")]; PStr "n/a"])
    (it := PStr "n/a")).
  - reflexivity.
  - right. left. reflexivity.
  - intros d. discriminate.
Defined.

Lemma external_products_maps_fields_witness :
  external_products (rt := strict_runtime)
    (serving (Raise RequestError) (Raise RequestError)
       (Ok (PList [PDict [("price", PStr "cheap");
                          ("url", PStr "https://example.com/x")]]))
       (Raise RequestError))
    "Rust" =
    [ {| name := "Product"; price := None;
         url := Some "https://example.com/x"; image := None |} ].
Proof.
  apply (external_products_maps_fields (rt := strict_runtime)
    (serving (Raise RequestError) (Raise RequestError)
       (Ok (PList [PDict [("price", PStr "cheap");
                          ("url", PStr "https://example.com/x")]]))
       (Raise RequestError))
    "Rust"
    (l := [PDict [("price", PStr "cheap");
                  ("url", PStr "https://example.com/x")]]));
    reflexivity.
Defined.

Lemma external_products_poisoned_witness :
  external_products (rt := strict_runtime)
    (serving (Raise RequestError) (Raise RequestError)
       (Ok (PList [PDict [("name", PStr "Spray")];
                   PDict [("name", PNone)]]))
       (Raise RequestError))
    "Rust" = fallback_products.
Proof.
  apply (external_products_poisoned (rt := strict_runtime)
    (serving (Raise RequestError) (Raise RequestError)
       (Ok (PList [PDict [("name", PStr "Spray")];
                   PDict [("name", PNone)]]))
       (Raise RequestError))
    "Rust"
    (l := [PDict [("name", PStr "Spray")]; PDict [("name", PNone)]])
    (it := PDict [("name", PNone)])).
  - reflexivity.
  - right. left. reflexivity.
  - right. exists [("name", PNone)]. split; reflexivity.
Defined.

Lemma external_tutorials_maps_fields_witness :
  external_tutorials (rt := strict_runtime)
    (serving (Raise RequestError) (Raise RequestError) (Raise RequestError)
       (Ok (PList [PDict [("videoId", PStr "abc")]])))
    "Rust" =
    [ {| title := "Tutorial"; videoId := Some "abc";
         thumbnail := None; tut_url := None |} ].
Proof.
  apply (proj1 (external_tutorials_maps_fields (rt := strict_runtime)
    (serving (Raise RequestError) (Raise RequestError) (Raise RequestError)
       (Ok (PList [PDict [("videoId", PStr "abc")]])))
    "Rust" (l := [PDict [("videoId", PStr "abc")]]) eq_refl)).
  reflexivity.
Defined.

(** ** Further properties of the routes *)

Section AnalyzeMore.

Context {rt : Runtime}.
Variable up : Upstream.
Variable image : string.

(** X10: [analyze] fails exactly when [external_predict] does, with the same
    exception, whatever the store. *)
Theorem analyze_raises_iff :
  forall (db : option Database) (e : exn),
    analyze up db image = Raise e <-> external_predict up image = Raise e.
Proof.
  intros db e. unfold analyze.
  destruct (external_predict up image) as [r|e']; simpl;
    [split; discriminate |].
  split; intros H; injection H as ->; reflexivity.
Qed.

(** X11: What became of the insert: nothing without a store; with a store the
    record handed to [create_document "analysis"] has exactly the four
    fields disease, confidence, organ "leaf" and the computed severity, and
    an exception of the store is kept away from the caller. *)
Theorem analyze_persists :
  forall (db : option Database) (b : AnalyzeResponse) (st : persisted),
    analyze up db image = Ok (b, st) ->
    let doc :=
      [ ("disease", PStr (pr_disease (result b)));
        ("confidence", PFloat (pr_confidence (result b)));
        ("organ", PStr "leaf");
        ("severity", PStr (severity_of (pr_confidence (result b)))) ] in
    match db with
    | None => st = NoStore
    | Some h =>
        match create_document h "analysis" doc with
        | Ok _ => st = Stored doc
        | Raise e => st = Discarded e
        end
    end.
Proof.
  intros db b st H doc.
  destruct (external_predict up image) as [r|e] eqn:P.
  - rewrite (analyze_returns up db image P) in H. injection H as <- <-.
    destruct (external_predict_severity up image P) as [S O].
    assert (D : analysis_record r = doc).
    { unfold analysis_record, doc. simpl. rewrite S, O. reflexivity. }
    unfold persist. rewrite D.
    destruct db as [h|]; [|reflexivity].
    destruct (create_document h "analysis" doc); reflexivity.
  - rewrite (analyze_raises up db image P) in H. discriminate.
Qed.

(** X12: The three lookups are keyed on the predicted disease: an upstream that
    answers the prediction and the three calls for that disease in the same
    way gives the same bundle. *)
Theorem analyze_keyed_on_disease :
  forall (up' : Upstream) (db db' : option Database) (r : PredictResponse),
    external_predict up image = Ok r ->
    post_predict up' image = post_predict up image ->
    get_treatments up' (pr_disease r) = get_treatments up (pr_disease r) ->
    get_products up' (pr_disease r) = get_products up (pr_disease r) ->
    get_tutorials up' (pr_disease r) = get_tutorials up (pr_disease r) ->
    bundle_of (analyze up' db' image) = bundle_of (analyze up db image).
Proof.
  intros up' db db' r P Hp Ht Hs Hu.
  assert (P' : external_predict up' image = Ok r).
  { rewrite <- P. unfold external_predict, predicted. rewrite Hp. reflexivity. }
  rewrite (analyze_returns up db image P), (analyze_returns up' db' image P').
  simpl. unfold external_treatments, external_products, products_tried,
    external_tutorials, tutorials_tried.
  rewrite Ht, Hs, Hu. reflexivity.
Qed.

(** X13: With the four upstream calls failing, every image gets the same
    bundle: "Leaf Blight" at 0.87, severity "high", the fallback treatment,
    the two fallback products and the two tutorials titled after
    "Leaf Blight". *)
Theorem analyze_upstream_down :
  forall (db : option Database) (e1 e2 e3 e4 : exn),
    post_predict up image = Raise e1 ->
    get_treatments up "Leaf Blight" = Raise e2 ->
    get_products up "Leaf Blight" = Raise e3 ->
    get_tutorials up "Leaf Blight" = Raise e4 ->
    bundle_of (analyze up db image) =
      Ok {| result :=
              {| pr_disease := "Leaf Blight";
                 pr_confidence := PyFloat.decimal 87 2;
                 pr_organ := Some "leaf"; pr_severity := Some "high" |};
            treatments := [fallback_treatment];
            products := fallback_products;
            tutorials :=
              [ {| title := "How to treat Leaf Blight";
                   videoId := Some "dQw4w9WgXcQ";
                   thumbnail := Some "https://img.youtube.com/vi/dQw4w9WgXcQ/hqdefault.jpg";
                   tut_url := Some "https://www.youtube.com/watch?v=dQw4w9WgXcQ" |};
                {| title := "Preventing Leaf Blight in your garden";
                   videoId := Some "9bZkp7q19f0";
                   thumbnail := Some "https://img.youtube.com/vi/9bZkp7q19f0/hqdefault.jpg";
                   tut_url := Some "https://www.youtube.com/watch?v=9bZkp7q19f0" |} ] |}.
Proof.
  intros db e1 e2 e3 e4 Hp Ht Hs Hu.
  pose proof (fallback_response up image (predicted_failure up image Hp)) as P.
  rewrite (analyze_returns up db image P). simpl.
  rewrite (external_treatments_failure up "Leaf Blight" Ht).
  rewrite (external_products_failure up "Leaf Blight" Hs).
  rewrite (external_tutorials_failure up "Leaf Blight" Hu).
  reflexivity.
Qed.

End AnalyzeMore.

Lemma analyze_raises_iff_witness :
  analyze (rt := strict_runtime)
    (serving (Ok (PDict [("disease", PNone)]))
       (Raise RequestError) (Raise RequestError) (Raise RequestError))
    (Some blank_store) "ZmFrZQ==" = Raise ValidationError.
Proof.
  apply (proj2 (analyze_raises_iff (rt := strict_runtime)
    (serving (Ok (PDict [("disease", PNone)]))
       (Raise RequestError) (Raise RequestError) (Raise RequestError))
    "ZmFrZQ==" (Some blank_store) ValidationError)).
  reflexivity.
Defined.

Lemma analyze_persists_witness :
  Discarded StoreError = Discarded StoreError.
Proof.
  apply (analyze_persists (rt := strict_runtime) offline "ZmFrZQ=="
           (Some broken_store)
           (b := {| result :=
                      {| pr_disease := "Leaf Blight"; pr_confidence := lit_0_87;
                         pr_organ := Some "leaf"; pr_severity := Some "high" |};
                    treatments := [fallback_treatment];
                    products := fallback_products;
                    tutorials := fallback_tutorials "Leaf Blight" |})
           (st := Discarded StoreError)).
  reflexivity.
Defined.

Lemma analyze_keyed_on_disease_witness :
  bundle_of (analyze (rt := strict_runtime) blight_desk
               (Some broken_store) "ZmFrZQ==") =
  bundle_of (analyze (rt := strict_runtime) empty_shelves None "ZmFrZQ==") /\
  get_treatments blight_desk "Rust" <> get_treatments empty_shelves "Rust" /\
  post_predict blight_desk "aW1n" <> post_predict empty_shelves "aW1n".
Proof.
  split; [|split; discriminate].
  apply (analyze_keyed_on_disease (rt := strict_runtime) empty_shelves
           "ZmFrZQ==" blight_desk None (Some broken_store)
           (r := {| pr_disease := "Leaf Blight"; pr_confidence := lit_0_87;
                    pr_organ := Some "leaf"; pr_severity := Some "high" |}));
    reflexivity.
Defined.

Lemma analyze_upstream_down_witness :
  exists b,
    bundle_of (analyze (rt := strict_runtime) offline (Some blank_store)
                 "ZmFrZQ==") = Ok b /\
    map name (products b) = ["Bio Neem Oil"; "Copper Fungicide"].
Proof.
  eexists. split.
  - apply (analyze_upstream_down (rt := strict_runtime) offline "ZmFrZQ=="
             (Some blank_store) (e1 := RequestError) (e2 := RequestError)
             (e3 := RequestError) (e4 := RequestError)); reflexivity.
  - reflexivity.
Defined.

(** X14: With a store that answers, [recent] returns one summary per document,
    in the store's order and however many the store gives: each summary has
    exactly the keys disease, confidence and severity, with the document's
    value, or null where the document has none; a store without documents
    gives the empty list and not the mock. *)
Theorem recent_projects :
  forall (db : Database) (limit : Z) (docs : list pydict),
    find_recent db limit = Ok docs ->
    List.length (recent (Some db) limit) = List.length docs /\
    Forall2
      (fun d s =>
         map fst s = ["disease"; "confidence"; "severity"] /\
         lookup "disease" s = Some (doc_get d "disease") /\
         lookup "confidence" s = Some (doc_get d "confidence") /\
         lookup "severity" s = Some (doc_get d "severity"))
      docs (recent (Some db) limit) /\
    (docs = [] -> recent (Some db) limit = []).
Proof.
  intros db limit docs H. unfold recent. rewrite H.
  split; [apply length_map|]. split.
  - clear H. induction docs as [|d docs IH]; simpl; constructor.
    + repeat split; reflexivity.
    + exact IH.
  - intros ->. reflexivity.
Qed.

Lemma recent_projects_witness :
  recent (Some blank_store) 8 = [].
Proof.
  apply (recent_projects blank_store 8 (docs := [])); reflexivity.
Defined.

(** ** Diagnostics *)

Lemma lookup_setitem_same (k : string) (v : pyval) (d : pydict) :
  lookup k (setitem k v d) = Some v.
Proof.
  induction d as [|[k' v'] d IH]; simpl.
  - rewrite String.eqb_refl. reflexivity.
  - destruct (String.eqb k k') eqn:E; simpl; rewrite E; [reflexivity|exact IH].
Qed.

Lemma lookup_setitem_other (k k' : string) (v : pyval) (d : pydict) :
  k <> k' -> lookup k' (setitem k v d) = lookup k' d.
Proof.
  intros N. induction d as [|[k0 v0] d IH]; simpl.
  - destruct (String.eqb_spec k' k); [congruence|reflexivity].
  - destruct (String.eqb_spec k k0); simpl.
    + subst k0. destruct (String.eqb_spec k' k); [congruence|reflexivity].
    + rewrite IH. reflexivity.
Qed.

Lemma setitem_keys (k : string) (v : pyval) (d : pydict) :
  In k (map fst d) -> map fst (setitem k v d) = map fst d.
Proof.
  induction d as [|[k0 v0] d IH]; simpl; [contradiction|].
  intros [->|Hin].
  - rewrite String.eqb_refl. reflexivity.
  - destruct (String.eqb k k0); simpl; [reflexivity|].
    rewrite (IH Hin). reflexivity.
Qed.

Lemma firstn_50_bound (message : codepoints) :
  (List.length (firstn 50 message) <= 50)%nat /\
  ((List.length message <= 50)%nat -> firstn 50 message = message).
Proof.
  split; [apply firstn_le_length|]. intros H. apply firstn_all2. exact H.
Qed.

Ltac by_cases_on_handle db :=
  destruct db as [[[[v|]|m] [cs|m']]|]; try reflexivity.

(** X15: The report always has the same six keys, in the same order, whatever
    the store handle does and whatever the environment holds. *)
Theorem test_database_keys :
  forall (db : option Handle) (env : environ),
    map fst (test_database db env) =
      ["backend"; "database"; "database_url"; "database_name";
       "connection_status"; "collections"].
Proof. intros db env. by_cases_on_handle db. Qed.

(** X16: [database_url] and [database_name] only tell whether the environment
    variables [DATABASE_URL] and [DATABASE_NAME] are set to a non-empty
    value: what was written there from the handle ("Configured", the
    handle's own name) is always overwritten, and a variable set to the
    empty string counts as not set. *)
Theorem test_database_env_flags :
  forall (db : option Handle) (env : environ) (field var : string),
    (field = "database_url" /\ var = "DATABASE_URL") \/
    (field = "database_name" /\ var = "DATABASE_NAME") ->
    (forall s, env var = Some s -> s <> "" ->
       lookup field (test_database db env) =
         Some (PStr (check_mark ++ " Set"))) /\
    (env var = None \/ env var = Some "" ->
       lookup field (test_database db env) =
         Some (PStr (cross_mark ++ " Not Set"))).
Proof.
  intros db env field var Hf.
  assert (E : lookup field (test_database db env) = Some (env_flag env var)).
  { destruct Hf as [[-> ->]|[-> ->]]; by_cases_on_handle db. }
  rewrite E. unfold env_flag. split.
  - intros s -> Hs. destruct (String.eqb_spec s ""); [contradiction|reflexivity].
  - intros [-> | ->]; reflexivity.
Qed.

Lemma test_database_env_flags_witness :
  lookup "database_url" (test_database (Some busy_handle) half_environ) =
    Some (PStr (check_mark ++ " Set")) /\
  lookup "database_name" (test_database (Some busy_handle) half_environ) =
    Some (PStr (cross_mark ++ " Not Set")).
Proof.
  split.
  - apply (proj1 (test_database_env_flags (Some busy_handle) half_environ
             (or_introl (conj eq_refl eq_refl))))
      with (s := "mongodb://localhost"); [reflexivity|discriminate].
  - apply (proj2 (test_database_env_flags (Some busy_handle) half_environ
             (or_intror (conj eq_refl eq_refl)))).
    right. reflexivity.
Defined.

(** X17: [collections] holds the first ten names the handle lists, and is empty
    when there is no handle or a call on it raised; it never has more than
    ten elements. *)
Theorem test_database_collections :
  forall (db : option Handle) (env : environ),
    exists cs,
      lookup "collections" (test_database db env) = Some (PList cs) /\
      (List.length cs <= 10)%nat /\
      cs = match db with
           | Some h =>
               match db_name h, list_collection_names h with
               | Got _, Got names => firstn 10 names
               | _, _ => []
               end
           | None => []
           end.
Proof.
  intros db env. eexists. split; [|split; [|reflexivity]].
  - by_cases_on_handle db.
  - destruct db as [[[nm|m] [names|m']]|];
      cbn [db_name list_collection_names]; try apply Nat.le_0_l.
    apply firstn_le_length.
Qed.

(** X18: The [database] line of the report after all assignments: working,
    not initialised, or the error of the call that raised with at most the
    first fifty characters of its message; the initial text
    "Not Available" never reaches the caller. *)
Theorem test_database_report :
  forall (db : option Handle) (env : environ),
    lookup "database" (test_database db env) =
      Some (PStr
        match db with
        | None => warning_sign ++ "  Available but not initialized"
        | Some h =>
            match db_name h, list_collection_names h with
            | Threw message, _ =>
                cross_mark ++ " Error: " ++ utf8 (firstn 50 message)
            | Got _, Threw message =>
                warning_sign ++ "  Connected but Error: "
                  ++ utf8 (firstn 50 message)
            | Got _, Got _ => check_mark ++ " Connected & Working"
            end
        end) /\
    lookup "database" (test_database db env) <>
      Some (PStr (cross_mark ++ " Not Available")) /\
    (forall message : codepoints,
       (List.length (firstn 50 message) <= 50)%nat /\
       ((List.length message <= 50)%nat -> firstn 50 message = message)).
Proof.
  intros db env. split; [|split].
  - by_cases_on_handle db.
  - destruct db as [[[[v|]|m] [cs|m']]|];
      vm_compute; intros H; discriminate H.
  - apply firstn_50_bound.
Qed.

(** X19: [backend] is always "Running", and [connection_status] says
    "Connected" exactly when there is a handle whose name could be read,
    also when listing its collections failed afterwards. *)
Theorem test_database_status :
  forall (db : option Handle) (env : environ),
    lookup "backend" (test_database db env) =
      Some (PStr (check_mark ++ " Running")) /\
    lookup "connection_status" (test_database db env) =
      Some (PStr
        match db with
        | Some h =>
            match db_name h with
            | Got _ => "Connected"
            | Threw _ => "Not Connected"
            end
        | None => "Not Connected"
        end).
Proof. intros db env. split; by_cases_on_handle db. Qed.

Lemma test_database_report_witness :
  lookup "database" (test_database (Some failing_handle) bare_environ) =
    Some (PStr (warning_sign ++ "  Connected but Error: "
                  ++ utf8 (repeat 120%N 50))) /\
  firstn 50 [72%N; 105%N] = [72%N; 105%N].
Proof.
  split.
  - exact (proj1 (test_database_report (Some failing_handle) bare_environ)).
  - apply (proj2 (proj2 (proj2
             (test_database_report (Some failing_handle) bare_environ))
             [72%N; 105%N])).
    simpl. lia.
Defined.
